(** * WhatsApp clone backend: webhook normalisation, message store, status
      updates and conversation aggregation

    A shallow embedding of [whatsapp-backend/src/processPayload.ts],
    [models.ts], [controllers.ts], the status progression of [index.ts] and
    the file ordering of [processWebhookFiles.ts].

    Conventions of the embedding:
    - a JavaScript string is a [string]; the model covers strings of ASCII
      code units, which is what phone numbers, identifiers, status names and
      type names are made of;
    - a [Date] is its time value, an integer number of milliseconds ([Z]);
      an Invalid Date is the absence of a time value;
    - the MongoDB collection [processed_messages] is a [list] of documents in
      natural (insertion) order; the schema declares no unique index, so the
      list may hold several documents with one [messageId];
    - [async] functions are sequential state transformers over a [World]
      (collection, socket.io emissions, console), which may throw. *)

From Stdlib Require Import ZArith List String Ascii Bool Lia.
From Stdlib Require Import Sorting.Sorted Sorting.Permutation.
From Stdlib Require Import DecimalString.
Import ListNotations.

Local Open Scope string_scope.

(** ** JavaScript primitives used by the source *)

Module Js.

(** [a || b] on strings: the empty string is falsy. *)
Definition or_else (a b : string) : string :=
  match a with EmptyString => b | _ => a end.

(** [a?.f || b]: [undefined] and the empty string are both falsy. *)
Definition opt_or_else (a : option string) (b : string) : string :=
  match a with Some s => or_else s b | None => b end.

(** [!s] on a string. *)
Definition falsy (s : string) : bool :=
  match s with EmptyString => true | _ => false end.

(** [Array.prototype.includes] on an array of strings. *)
Definition includes (l : list string) (s : string) : bool :=
  existsb (String.eqb s) l.

Definition code (c : ascii) : N := N_of_ascii c.

(** [String.prototype.toUpperCase], on ASCII code units. *)
Definition upper_char (c : ascii) : ascii :=
  if (97 <=? code c)%N && (code c <=? 122)%N
  then ascii_of_N (code c - 32) else c.

Fixpoint toUpperCase (s : string) : string :=
  match s with
  | EmptyString => EmptyString
  | String c r => String (upper_char c) (toUpperCase r)
  end.

(** White space and line terminators (TAB, LF, VT, FF, CR, SP). *)
Definition isWhiteSpace (c : ascii) : bool :=
  existsb (N.eqb (code c)) [9; 10; 11; 12; 13; 32]%N.

Fixpoint trimStart (s : string) : string :=
  match s with
  | EmptyString => EmptyString
  | String c r => if isWhiteSpace c then trimStart r else s
  end.

Fixpoint trimEnd (s : string) : string :=
  match s with
  | EmptyString => EmptyString
  | String c r =>
      match trimEnd r with
      | EmptyString => if isWhiteSpace c then EmptyString else String c EmptyString
      | r' => String c r'
      end
  end.

(** [String.prototype.trim]. *)
Definition trim (s : string) : string := trimEnd (trimStart s).

(** [s.startsWith(p)]. *)
Definition startsWith (p s : string) : bool := String.prefix p s.

(** Value of a digit in the given radix, if it is one. *)
Definition digitVal (radix : N) (c : ascii) : option N :=
  let n := code c in
  let v :=
    if (48 <=? n)%N && (n <=? 57)%N then Some (n - 48)%N
    else if (97 <=? n)%N && (n <=? 122)%N then Some (n - 87)%N
    else if (65 <=? n)%N && (n <=? 90)%N then Some (n - 55)%N
    else None in
  match v with
  | Some d => if (d <? radix)%N then Some d else None
  | None => None
  end.

(** The value of the longest prefix of digits; [None] when it is empty. *)
Fixpoint digits (radix : N) (s : string) (acc : option N) : option N :=
  match s with
  | EmptyString => acc
  | String c r =>
      match digitVal radix c with
      | Some d =>
          digits radix r
            (Some (radix * match acc with Some a => a | None => 0 end + d)%N)
      | None => acc
      end
  end.

(** [parseInt(s)] with no radix argument: leading white space, an optional
    sign, an optional [0x]/[0X] prefix, then digits. [None] is [NaN]. *)
Definition parseInt (s : string) : option Z :=
  let s1 := trimStart s in
  let '(sign, s2) :=
    match s1 with
    | String "-" r => ((-1)%Z, r)
    | String "+" r => (1%Z, r)
    | _ => (1%Z, s1)
    end in
  let '(radix, s3) :=
    match s2 with
    | String "0" (String x r) =>
        if Ascii.eqb x "x" || Ascii.eqb x "X" then (16%N, r) else (10%N, s2)
    | _ => (10%N, s2)
    end in
  option_map (fun n => (sign * Z.of_N n)%Z) (digits radix s3 None).

(** [new Date(n * 1000)] for [n = parseInt(..)]. TimeClip makes the date
    invalid beyond 8.64e15 ms. The source computes in doubles: up to
    8.64e12 seconds both [n] and [n * 1000] are below 2^53 and exact, and
    above it rounding is monotone, so the product stays above the limit;
    the integer test below is therefore the one the doubles perform. *)
Definition dateOfSeconds (n : option Z) : option Z :=
  match n with
  | Some k =>
      if (Z.abs (k * 1000) <=? 8640000000000000)%Z
      then Some (k * 1000)%Z else None
  | None => None
  end.

(** Decimal rendering of an integer, as in a template literal. *)
Definition showZ (n : Z) : string := NilZero.string_of_int (Z.to_int n).

End Js.

(** ** models.ts: the message document and its schema *)

Module Models.

(** [status: 'pending' | 'sent' | 'delivered' | 'read'] *)
Inductive Status := pending | sent | delivered | read.

Definition Status_eqb (a b : Status) : bool :=
  match a, b with
  | pending, pending | sent, sent | delivered, delivered | read, read => true
  | _, _ => false
  end.

(** The stored string of a status, and the enum validator's reading of a
    string. *)
Definition Status_name (s : Status) : string :=
  match s with
  | pending => "pending" | sent => "sent"
  | delivered => "delivered" | read => "read"
  end.

Definition Status_of_name (s : string) : option Status :=
  if String.eqb s "pending" then Some pending
  else if String.eqb s "sent" then Some sent
  else if String.eqb s "delivered" then Some delivered
  else if String.eqb s "read" then Some read
  else None.

(** Position of a status in [pending -> sent -> delivered -> read]. *)
Definition rank (s : Status) : nat :=
  match s with pending => 0 | sent => 1 | delivered => 2 | read => 3 end.

(** [IMessage]. Dates are time values in milliseconds; the optional
    bookkeeping dates are absent until the document is saved. *)
Record IMessage := {
  conversationId : string;
  messageId : string;
  metaMsgId : option string;
  from : string;
  to : string;
  timestamp : Z;
  type : string;
  body : string;
  status : Status;
  userName : string;
  createdAt : option Z;
  updatedAt : option Z
}.

Definition set_status (s : Status) (now : Z) (m : IMessage) : IMessage :=
  {| conversationId := conversationId m; messageId := messageId m;
     metaMsgId := metaMsgId m; from := from m; to := to m;
     timestamp := timestamp m; type := type m; body := body m;
     status := s; userName := userName m;
     createdAt := createdAt m; updatedAt := Some now |}.

(** [valid.includes(s)], and the status the accepted string names. *)
Definition Status_among (valid : list string) (s : string) : option Status :=
  if Js.includes valid s then Status_of_name s else None.

(** The [required: true] paths of [messageSchema]: a required String path
    rejects the empty string. ([timestamp] is required as well; an Invalid
    Date never reaches this check, see [processMessage].) *)
Definition required_ok (m : IMessage) : bool :=
  negb (Js.falsy (conversationId m)) && negb (Js.falsy (messageId m))
  && negb (Js.falsy (from m)) && negb (Js.falsy (to m))
  && negb (Js.falsy (type m)).

End Models.

(** ** The world the handlers run in *)

(** socket.io: [io.to(room).emit(name, payload)]. *)
Inductive Event :=
| new_message (m : Models.IMessage)
| message_status_updated (messageId : string) (status : Models.Status)
    (updatedAt : option Z).

Record Emission := { room : string; event : Event }.

(** What [save()] can throw in the model. *)
Inductive Error := ValidationError.

(** One constructor per [console.log]/[console.error] of the handlers, with
    the values interpolated into the message. *)
Inductive LogLine :=
| NoEntryFound
| NoValueFound
| UnknownPayloadType
| ErrorProcessingWebhook (e : Error)
| InvalidMessageData
| AlreadyExists (id : string)
| Inserted (id userName : string)
| Content (shown : string)
| ErrorProcessingMessage (e : Error)
| NoStatusUpdateFound
| NoMessageIdInStatus
| InvalidStatus (status : string)
| UpdatedStatus (id : string) (status : Models.Status)
| NoMessageFoundToUpdate (id : string)
| RecentMessageIds (ids : list string)
| ErrorProcessingStatus (e : Error)
| EmittedNewMessage (conversationId : string)
| ErrorSendingMessage (e : Error)
| ErrorUpdatingStatus (e : Error).

Record World := {
  db : list Models.IMessage;
  emitted : list Emission;
  console : list LogLine
}.

Inductive Outcome (A : Type) :=
| Returned (a : A)
| Threw (e : Error).
Arguments Returned {A} a.
Arguments Threw {A} e.

(** A computation of the handlers: reads and updates the world, returns or
    throws. *)
Definition M (A : Type) : Type := World -> Outcome A * World.

Definition ret {A} (a : A) : M A := fun w => (Returned a, w).

Definition bind {A B} (c : M A) (k : A -> M B) : M B :=
  fun w =>
    match c w with
    | (Returned a, w') => k a w'
    | (Threw e, w') => (Threw e, w')
    end.

Definition throw {A} (e : Error) : M A := fun w => (Threw e, w).

Declare Scope handler_scope.
Delimit Scope handler_scope with handler.
Notation "x <- c1 ;; c2" := (bind c1 (fun x => c2))
  (at level 61, c1 at next level, right associativity) : handler_scope.
Notation "c1 ;; c2" := (bind c1 (fun _ => c2))
  (at level 61, right associativity) : handler_scope.

(** [console.log(..)] *)
Definition log (l : LogLine) : M unit :=
  fun w => (Returned tt,
            {| db := db w; emitted := emitted w; console := console w ++ [l] |}).

(** [io.to(room).emit(..)] *)
Definition emit (r : string) (e : Event) : M unit :=
  fun w => (Returned tt,
            {| db := db w;
               emitted := emitted w ++ [{| room := r; event := e |}];
               console := console w |}).

Definition read_db : M (list Models.IMessage) := fun w => (Returned (db w), w).

Definition write_db (d : list Models.IMessage) : M unit :=
  fun w => (Returned tt,
            {| db := d; emitted := emitted w; console := console w |}).

(** [try { c } catch (error) { console.error(label, error); throw error; }] *)
Definition try_rethrow {A} (label : Error -> LogLine) (c : M A) : M A :=
  fun w =>
    match c w with
    | (Returned a, w') => (Returned a, w')
    | (Threw e, w') =>
        (Threw e, {| db := db w'; emitted := emitted w';
                     console := console w' ++ [label e] |})
    end.

(** [try { c } catch (error) { h(error) }] *)
Definition try_catch {A} (c : M A) (h : Error -> M A) : M A :=
  fun w =>
    match c w with
    | (Returned a, w') => (Returned a, w')
    | (Threw e, w') => h e w'
    end.

(** ** The collection operations the handlers call on [Message] *)

Module Mongo.

Import Models.

Section Sorting.
Context {A : Type} (le : A -> A -> bool).

Fixpoint insert_by (x : A) (l : list A) : list A :=
  match l with
  | [] => [x]
  | y :: r => if le x y then x :: y :: r else y :: insert_by x r
  end.

(** A [$sort] stage / [.sort()]: the model keeps documents with equal
    keys in their incoming order. *)
Definition sort_by (l : list A) : list A := fold_right insert_by [] l.
End Sorting.

Definition by_timestamp_asc (a b : IMessage) : bool :=
  (timestamp a <=? timestamp b)%Z.
Definition by_timestamp_desc (a b : IMessage) : bool :=
  (timestamp b <=? timestamp a)%Z.

(** The filter [{ messageId }]. *)
Definition has_id (i : string) (m : IMessage) : bool :=
  String.eqb (messageId m) i.

(** Replace the first document matching [p] by its image under [f];
    returns that image, if a document matched. *)
Fixpoint update_first (p : IMessage -> bool) (f : IMessage -> IMessage)
    (l : list IMessage) : option IMessage * list IMessage :=
  match l with
  | [] => (None, [])
  | m :: r =>
      if p m then (Some (f m), f m :: r)
      else let '(u, r') := update_first p f r in (u, m :: r')
  end.

(** [Message.findOne({ messageId })] *)
Definition findOne (i : string) : M (option IMessage) :=
  (d <- read_db ;; ret (find (has_id i) d))%handler.

(** The document as [save()] inserts it: [timestamps: true] sets both
    bookkeeping dates. *)
Definition stamped (now : Z) (m : IMessage) : IMessage :=
  {| conversationId := conversationId m; messageId := messageId m;
     metaMsgId := metaMsgId m; from := from m; to := to m;
     timestamp := timestamp m; type := type m; body := body m;
     status := status m; userName := userName m;
     createdAt := Some now; updatedAt := Some now |}.

(** [doc.save()] on a new document: validation, then insertion. *)
Definition save (now : Z) (m : IMessage) : M IMessage :=
  if required_ok m then
    (d <- read_db ;; write_db (d ++ [stamped now m]) ;; ret (stamped now m))%handler
  else throw ValidationError.

(** [Message.updateOne({ messageId }, { $set: { status, updatedAt } })];
    returns [matchedCount]. *)
Definition updateOne (i : string) (s : Status) (now : Z) : M nat :=
  (d <- read_db ;;
   let '(u, d') := update_first (has_id i) (set_status s now) d in
   write_db d' ;;
   ret (match u with Some _ => 1 | None => 0 end))%handler.

(** [Message.findOneAndUpdate({ messageId }, { status, updatedAt },
    { new: true })]; returns the document after the update, or [null]. *)
Definition findOneAndUpdate (i : string) (s : Status) (now : Z)
    : M (option IMessage) :=
  (d <- read_db ;;
   let '(u, d') := update_first (has_id i) (set_status s now) d in
   write_db d' ;;
   ret u)%handler.

(** [Message.find({}, { messageId: 1 }).limit(5).sort({ timestamp: -1 })]:
    the query sorts, then limits. *)
Definition findRecent (n : nat) : M (list IMessage) :=
  (d <- read_db ;; ret (firstn n (sort_by by_timestamp_desc d)))%handler.

End Mongo.

(** ** processPayload.ts *)

(** [interface WhatsAppMessage]. Optional members are [option]s;
    [image?: { caption?: string }] is [None] without the object and
    [Some None] when the object has no caption. *)
Module WhatsAppMessage.
Record t := {
  id : string;
  from : string;
  to : option string;
  timestamp : string;
  type : string;
  text : option string;
  image : option (option string);
  document : option (option string);
  video : option (option string)
}.
End WhatsAppMessage.

(** [interface WhatsAppContact] *)
Module WhatsAppContact.
Record t := { profile_name : string; wa_id : string }.
End WhatsAppContact.

(** [interface WhatsAppMetadata] *)
Module WhatsAppMetadata.
Record t := { display_phone_number : string; phone_number_id : string }.
End WhatsAppMetadata.

(** [interface WhatsAppStatus]; [status] is whatever string the payload
    carries, the handler validates it. *)
Module WhatsAppStatus.
Record t := {
  id : string;
  meta_msg_id : option string;
  status : string;
  timestamp : string;
  recipient_id : string
}.
End WhatsAppStatus.

(** [interface WhatsAppValue] *)
Module WhatsAppValue.
Record t := {
  messaging_product : option string;
  metadata : option WhatsAppMetadata.t;
  contacts : option (list WhatsAppContact.t);
  messages : option (list WhatsAppMessage.t);
  statuses : option (list WhatsAppStatus.t)
}.
End WhatsAppValue.

(** [interface WebhookPayload] *)
Module WebhookPayload.
Record change := { field : string; value : WhatsAppValue.t }.
Record entry_t := { changes : option (list change) }.
Record metaData_t := { entry : option (list entry_t) }.
Record t := { metaData : option metaData_t }.
End WebhookPayload.

Module ProcessPayload.

Import Models.
Local Open Scope handler_scope.

(** [a?.[0]] *)
Definition first {A} (a : option (list A)) : option A :=
  match a with Some (x :: _) => Some x | _ => None end.

(** [metadata?.phone_number_id || metadata?.display_phone_number
     || '918329446654'] *)
Definition businessNumber (metadata : option WhatsAppMetadata.t) : string :=
  Js.opt_or_else (option_map WhatsAppMetadata.phone_number_id metadata)
    (Js.opt_or_else
       (option_map WhatsAppMetadata.display_phone_number metadata)
       "918329446654").

(** [message.from !== businessNumber ? message.from : message.to || ''] *)
Definition userNumber (bn : string) (message : WhatsAppMessage.t) : string :=
  if negb (String.eqb (WhatsAppMessage.from message) bn)
  then WhatsAppMessage.from message
  else Js.opt_or_else (WhatsAppMessage.to message) "".

(** The [if]/[else if] chain on [message.type]. *)
Definition messageBody (message : WhatsAppMessage.t) : string :=
  let ty := WhatsAppMessage.type message in
  if String.eqb ty "text" then
    Js.opt_or_else (WhatsAppMessage.text message) ""
  else if String.eqb ty "image" then
    Js.opt_or_else
      (match WhatsAppMessage.image message with Some c => c | None => None end)
      "[Image]"
  else if String.eqb ty "document" then
    Js.opt_or_else
      (match WhatsAppMessage.document message with Some f => f | None => None end)
      "[Document]"
  else if String.eqb ty "audio" then "[Voice Message]"
  else if String.eqb ty "video" then
    Js.opt_or_else
      (match WhatsAppMessage.video message with Some c => c | None => None end)
      "[Video]"
  else "[" ++ Js.toUpperCase ty ++ "]".

(** [`${messageBody.substring(0, 50)}${messageBody.length > 50 ? '...' : ''}`] *)
Definition shown (b : string) : string :=
  String.substring 0 50 b ++ (if Nat.ltb 50 (String.length b) then "..." else "").

(** The document [new Message({ .. })] builds in [processMessage], for the
    time value [t] of [new Date(parseInt(message.timestamp) * 1000)]. The
    bookkeeping dates are set when the document is saved. *)
Definition newMessage (metadata : option WhatsAppMetadata.t)
    (contact : option WhatsAppContact.t) (message : WhatsAppMessage.t)
    (t : Z) : IMessage :=
  let bn := businessNumber metadata in
  let un := userNumber bn message in
  let isFromBusiness := String.eqb (WhatsAppMessage.from message) bn in
  {| conversationId := "conv_" ++ un;
     messageId := WhatsAppMessage.id message;
     metaMsgId := None;
     from := WhatsAppMessage.from message;
     to := if isFromBusiness then un else bn;
     timestamp := t;
     type := Js.or_else (WhatsAppMessage.type message) "text";
     body := messageBody message;
     status := sent;
     userName :=
       Js.opt_or_else (option_map WhatsAppContact.profile_name contact)
         (if isFromBusiness then "Business" else "Unknown User");
     createdAt := None; updatedAt := None |}.

(** [const processMessage = async (value) => ..] *)
Definition processMessage (now : Z) (value : WhatsAppValue.t) : M unit :=
  try_rethrow ErrorProcessingMessage
    (let contact := first (WhatsAppValue.contacts value) in
     let metadata := WhatsAppValue.metadata value in
     match first (WhatsAppValue.messages value) with
     | None => log InvalidMessageData
     | Some message =>
         if Js.falsy (WhatsAppMessage.id message) then log InvalidMessageData
         else
           existingMessage <- Mongo.findOne (WhatsAppMessage.id message) ;;
           match existingMessage with
           | Some _ => log (AlreadyExists (WhatsAppMessage.id message))
           | None =>
               (* an Invalid Date fails the cast of [timestamp]; mongoose
                  reports it when [save()] validates *)
               match Js.dateOfSeconds
                       (Js.parseInt (WhatsAppMessage.timestamp message)) with
               | None => throw ValidationError
               | Some t =>
                   saved <-
                     Mongo.save now (newMessage metadata contact message t) ;;
                   log (Inserted (WhatsAppMessage.id message)
                          (userName saved)) ;;
                   log (Content (shown (messageBody message)))
               end
           end
     end).

(** [const validStatuses: string[] = ['sent', 'delivered', 'read']] *)
Definition validStatuses : list string := ["sent"; "delivered"; "read"].

(** [statusUpdate.id || statusUpdate.meta_msg_id]; the empty result stands
    for every falsy one. *)
Definition statusMessageId (statusUpdate : WhatsAppStatus.t) : string :=
  Js.or_else (WhatsAppStatus.id statusUpdate)
    (Js.opt_or_else (WhatsAppStatus.meta_msg_id statusUpdate) "").

(** [const processStatusUpdate = async (value) => ..] *)
Definition processStatusUpdate (now : Z) (value : WhatsAppValue.t) : M unit :=
  try_rethrow ErrorProcessingStatus
    (match first (WhatsAppValue.statuses value) with
     | None => log NoStatusUpdateFound
     | Some statusUpdate =>
         let messageId := statusMessageId statusUpdate in
         if Js.falsy messageId then log NoMessageIdInStatus
         else
           match Status_among validStatuses
                   (WhatsAppStatus.status statusUpdate) with
           | None => log (InvalidStatus (WhatsAppStatus.status statusUpdate))
           | Some s =>
               matchedCount <- Mongo.updateOne messageId s now ;;
               if Nat.ltb 0 matchedCount then log (UpdatedStatus messageId s)
               else
                 log (NoMessageFoundToUpdate messageId) ;;
                 recentMessages <- Mongo.findRecent 5 ;;
                 log (RecentMessageIds (map Models.messageId recentMessages))
           end
     end).

(** [export const processWebhookPayload = async (payload) => ..] *)
Definition processWebhookPayload (now : Z) (payload : WebhookPayload.t)
    : M unit :=
  try_rethrow ErrorProcessingWebhook
    (match first (match WebhookPayload.metaData payload with
                  | Some md => WebhookPayload.entry md
                  | None => None
                  end) with
     | None => log NoEntryFound
     | Some entry =>
         match first (WebhookPayload.changes entry) with
         | None => log NoValueFound
         | Some changes =>
             let value := WebhookPayload.value changes in
             match WhatsAppValue.messages value,
                   WhatsAppValue.statuses value with
             | Some _, _ => processMessage now value
             | None, Some _ => processStatusUpdate now value
             | None, None => log UnknownPayloadType
             end
         end
     end).

(** [phoneNumber.replace(/[^\d+]/g, '')] *)
Fixpoint keepDigitsAndPlus (s : string) : string :=
  match s with
  | EmptyString => EmptyString
  | String c r =>
      if ((48 <=? Js.code c)%N && (Js.code c <=? 57)%N) || Ascii.eqb c "+"
      then String c (keepDigitsAndPlus r) else keepDigitsAndPlus r
  end.

(** [const extractPhoneNumber = (phoneNumber) => ..]; [None] is [null]. *)
Definition extractPhoneNumber (phoneNumber : string) : option string :=
  if Js.falsy phoneNumber then None
  else
    let cleaned := keepDigitsAndPlus phoneNumber in
    Some (if Js.startsWith "+" cleaned
          then String.substring 1 (String.length cleaned - 1) cleaned
          else cleaned).

(** [export const getConversationId = (userNumber, businessNumber) => ..];
    a [null] interpolates as the text [null]. *)
Definition getConversationId (userNumber businessNumber : string) : string :=
  "conv_" ++ match extractPhoneNumber userNumber with
             | Some n => n
             | None => "null"
             end.

End ProcessPayload.

(** ** index.ts: what the controllers find on the application *)

Module App.
(** [app.get('socketio')] is the server or [undefined]. *)
Record t := { socketio : bool }.

(** [app.set('socketio', io)] runs unconditionally at start-up. *)
Definition app : t := {| socketio := true |}.
End App.

(** ** controllers.ts *)

Module Controllers.

Local Open Scope handler_scope.

(** A value of an aggregation expression: a field can be absent, which is
    not the same as holding [null]. The comparison operators order values
    by BSON type first, and the missing value and [null] are of different
    types. *)
Inductive bson (A : Type) :=
| missing
| null
| value (a : A).
Arguments missing {A}.
Arguments null {A}.
Arguments value {A} a.

(** [{ $eq: [x, null] }] *)
Definition eq_null {A} (x : bson A) : bool :=
  match x with null => true | _ => false end.

(** [{ $ne: [x, null] }] *)
Definition ne_null {A} (x : bson A) : bool := negb (eq_null x).

(** [{ $arrayElemAt: [l, 0] }]: no result when the index is out of bounds. *)
Definition arrayElemAt0 {A} (l : list (bson A)) : bson A :=
  match l with [] => missing | x :: _ => x end.

(** The document [{ userName: '$userName', from: '$from' }]. *)
Record customer_t := { c_userName : string; c_from : string }.

(** The accumulators of the [$group] stage. *)
Record group_t := {
  _id : string;
  lastMessage : Models.IMessage;
  g_messageCount : nat;
  g_participants : list string;
  customerMessages : list (bson customer_t)
}.

(** [$cond: [{ $ne: ['$userName', 'Business'] }, { userName, from }, null]] *)
Definition customerMessage (m : Models.IMessage) : bson customer_t :=
  if negb (String.eqb (Models.userName m) "Business")
  then value {| c_userName := Models.userName m; c_from := Models.from m |}
  else null.

(** [$addToSet] *)
Definition addToSet (s : string) (l : list string) : list string :=
  if existsb (String.eqb s) l then l else l ++ [s].

Definition new_group (m : Models.IMessage) : group_t :=
  {| _id := Models.conversationId m;
     lastMessage := m;
     g_messageCount := 1;
     g_participants := [Models.userName m];
     customerMessages := [customerMessage m] |}.

Definition add_to_group (g : group_t) (m : Models.IMessage) : group_t :=
  {| _id := _id g;
     lastMessage := m;
     g_messageCount := g_messageCount g + 1;
     g_participants := addToSet (Models.userName m) (g_participants g);
     customerMessages := customerMessages g ++ [customerMessage m] |}.

(** One document enters the [$group] stage. *)
Fixpoint accumulate (gs : list group_t) (m : Models.IMessage)
    : list group_t :=
  match gs with
  | [] => [new_group m]
  | g :: r =>
      if String.eqb (_id g) (Models.conversationId m)
      then add_to_group g m :: r
      else g :: accumulate r m
  end.

(** [{ $group: { _id: '$conversationId', .. } }] over the incoming
    documents, in their order. *)
Definition group (docs : list Models.IMessage) : list group_t :=
  fold_left accumulate docs [].

(** [interface ConversationSummary]; [userName] is [None] when the
    projected expression has no value and the field is left out. *)
Record ConversationSummary := {
  conversationId : string;
  userName : option string;
  lastMessageBody : string;
  lastTimestamp : Z;
  messageCount : nat;
  participants : list string
}.

(** The [userName] expression of the [$project] stage. *)
Definition projected_userName (g : group_t) : option string :=
  let customer :=
    arrayElemAt0 (filter ne_null (customerMessages g)) in
  if eq_null customer then
    Some ("+" ++ String.substring 5 (String.length (_id g) - 5) (_id g))
  else
    match customer with
    | value c => Some (c_userName c)
    | _ => None
    end.

(** [{ $project: { .. } }] *)
Definition project (g : group_t) : ConversationSummary :=
  {| conversationId := _id g;
     userName := projected_userName g;
     lastMessageBody := Models.body (lastMessage g);
     lastTimestamp := Models.timestamp (lastMessage g);
     messageCount := g_messageCount g;
     participants := g_participants g |}.

Definition by_lastTimestamp_desc (a b : ConversationSummary) : bool :=
  (lastTimestamp b <=? lastTimestamp a)%Z.

(** [Message.aggregate([$sort, $group, $project, $sort])] *)
Definition aggregate (docs : list Models.IMessage)
    : list ConversationSummary :=
  Mongo.sort_by by_lastTimestamp_desc
    (map project (group (Mongo.sort_by Mongo.by_timestamp_asc docs))).

(** The bodies passed to [res.json]. *)
Inductive Body :=
| json_error (error : string)
| json_message (m : Models.IMessage)
| json_conversations (l : list ConversationSummary).

Record Response := { statusCode : nat; json : Body }.

(** [export const getConversations = async (req, res) => ..] *)
Definition getConversations : M Response :=
  docs <- read_db ;;
  ret {| statusCode := 200; json := json_conversations (aggregate docs) |}.

(** [interface MessageRequest] *)
Record MessageRequest := {
  r_conversationId : string;
  r_from : string;
  r_to : string;
  r_body : string;
  r_userName : option string
}.

(** [export const sendMessage = async (req, res) => ..]. [now] is the
    clock and [rnd] is [Math.random().toString(36).substr(2, 9)]. *)
Definition sendMessage (app : App.t) (now : Z) (rnd : string)
    (req : MessageRequest) : M Response :=
  if Js.falsy (r_conversationId req) || Js.falsy (r_from req)
     || Js.falsy (r_to req) || Js.falsy (r_body req)
  then ret {| statusCode := 400;
              json := json_error
                "Missing required fields: conversationId, from, to, body" |}
  else
    try_catch
      (savedMessage <-
         Mongo.save now
           {| Models.conversationId := r_conversationId req;
              Models.messageId := "msg_" ++ Js.showZ now ++ "_" ++ rnd;
              Models.metaMsgId := None;
              Models.from := r_from req;
              Models.to := r_to req;
              Models.timestamp := now;
              Models.type := "text";
              Models.body := Js.trim (r_body req);
              Models.status := Models.sent;
              Models.userName := Js.opt_or_else (r_userName req) "Business";
              Models.createdAt := None; Models.updatedAt := None |} ;;
       (if App.socketio app then
          emit (r_conversationId req) (new_message savedMessage) ;;
          log (EmittedNewMessage (r_conversationId req))
        else ret tt) ;;
       ret {| statusCode := 201; json := json_message savedMessage |})
      (fun error =>
         log (ErrorSendingMessage error) ;;
         ret {| statusCode := 500;
                json := json_error "Failed to send message" |}).

(** [const validStatuses = ['sent', 'delivered', 'read']] *)
Definition validStatuses : list string := ["sent"; "delivered"; "read"].

(** [export const updateMessageStatus = async (req, res) => ..], with
    [messageId = req.params.messageId] and [status = req.body.status]. *)
Definition updateMessageStatus (app : App.t) (now : Z)
    (messageId status : string) : M Response :=
  if Js.falsy messageId || Js.falsy status
  then ret {| statusCode := 400;
              json := json_error "Message ID and status are required" |}
  else
    match Models.Status_among validStatuses status with
    | None =>
        ret {| statusCode := 400;
               json := json_error
                 "Invalid status. Must be: sent, delivered, or read" |}
    | Some s =>
        try_catch
          (updatedMessage <- Mongo.findOneAndUpdate messageId s now ;;
           match updatedMessage with
           | None =>
               ret {| statusCode := 404;
                      json := json_error "Message not found" |}
           | Some u =>
               (if App.socketio app then
                  emit (Models.conversationId u)
                    (message_status_updated messageId s (Models.updatedAt u))
                else ret tt) ;;
               ret {| statusCode := 200; json := json_message u |}
           end)
          (fun error =>
             log (ErrorUpdatingStatus error) ;;
             ret {| statusCode := 500;
                    json := json_error "Failed to update message status" |})
    end.

(** The answers of the read endpoints that carry other bodies than
[Response]: an error object or the value passed to [res.json]. *)
Inductive Json (A : Type) :=
| json_fail (error : string)
| json_ok (a : A).
Arguments json_fail {A} error.
Arguments json_ok {A} a.

Record Reply (A : Type) := { replyCode : nat; replyJson : Json A }.
Arguments replyCode {A} r.
Arguments replyJson {A} r.

(** The filter [{ conversationId }]. *)
Definition in_conversation (c : string) (m : Models.IMessage) : bool :=
  String.eqb (Models.conversationId m) c.

(** [export const getMessagesByConversation = async (req, res) => ..], with
[conversationId = req.params.conversationId]. The [catch] clause answers
store failures, which the model does not have. *)
Definition getMessagesByConversation (conversationId : string)
    : M (Reply (list Models.IMessage)) :=
  if Js.falsy conversationId
  then ret {| replyCode := 400;
              replyJson := json_fail "Conversation ID is required" |}
  else
    docs <- read_db ;;
    ret {| replyCode := 200;
           replyJson :=
             json_ok (Mongo.sort_by Mongo.by_timestamp_asc
                        (filter (in_conversation conversationId) docs)) |}.

(** The object [getConversationStats] answers. *)
Record Stats := {
  totalMessages : nat;
  totalConversations : nat;
  statusBreakdown : list Models.Status
}.

(** The accumulators of [{ $group: { _id: null, .. } }]. *)
Record stats_group_t := {
  s_totalMessages : nat;
  s_totalConversations : list string;
  s_statusBreakdown : list Models.Status
}.

Definition stats_step (g : stats_group_t) (m : Models.IMessage)
    : stats_group_t :=
  {| s_totalMessages := s_totalMessages g + 1;
     s_totalConversations :=
       addToSet (Models.conversationId m) (s_totalConversations g);
     s_statusBreakdown := s_statusBreakdown g ++ [Models.status m] |}.

(** The two stages of the statistics pipeline. Grouping on a constant key
yields one document, and none when the collection is empty. *)
Definition stats_pipeline (docs : list Models.IMessage) : list Stats :=
  match docs with
  | [] => []
  | _ =>
      let g := fold_left stats_step docs
                 {| s_totalMessages := 0; s_totalConversations := [];
                    s_statusBreakdown := [] |} in
      [{| totalMessages := s_totalMessages g;
          totalConversations := List.length (s_totalConversations g);
          statusBreakdown := s_statusBreakdown g |}]
  end.

(** [export const getConversationStats = async (req, res) => ..]:
[stats[0] || { totalMessages: 0, totalConversations: 0,
statusBreakdown: [] }]. *)
Definition getConversationStats : M (Reply Stats) :=
  docs <- read_db ;;
  ret {| replyCode := 200;
         replyJson :=
           json_ok (match stats_pipeline docs with
                    | s :: _ => s
                    | [] => {| totalMessages := 0; totalConversations := 0;
                               statusBreakdown := [] |}
                    end) |}.

End Controllers.

(** ** Sample payloads and stores *)

Module Scenario.

Import ListNotations.

(** [{id:"m1", from:"5551234", to:"BUSINESS", type:"text",
      text:{body:"hi"}, timestamp:"1000"}] *)
Definition m1 : WhatsAppMessage.t :=
  {| WhatsAppMessage.id := "m1";
     WhatsAppMessage.from := "5551234";
     WhatsAppMessage.to := Some "BUSINESS";
     WhatsAppMessage.timestamp := "1000";
     WhatsAppMessage.type := "text";
     WhatsAppMessage.text := Some "hi";
     WhatsAppMessage.image := None;
     WhatsAppMessage.document := None;
     WhatsAppMessage.video := None |}.

(** A reply of the business (no metadata: the default number) to the
    same party. *)
Definition m2 : WhatsAppMessage.t :=
  {| WhatsAppMessage.id := "m2";
     WhatsAppMessage.from := "918329446654";
     WhatsAppMessage.to := Some "5551234";
     WhatsAppMessage.timestamp := "1005";
     WhatsAppMessage.type := "image";
     WhatsAppMessage.text := None;
     WhatsAppMessage.image := Some (Some "our menu");
     WhatsAppMessage.document := None;
     WhatsAppMessage.video := None |}.

(** A message of a type outside the five named ones, from a number
    written with a leading plus sign. *)
Definition m3 : WhatsAppMessage.t :=
  {| WhatsAppMessage.id := "m3";
     WhatsAppMessage.from := "+5551234";
     WhatsAppMessage.to := None;
     WhatsAppMessage.timestamp := "1010";
     WhatsAppMessage.type := "sticker";
     WhatsAppMessage.text := None;
     WhatsAppMessage.image := None;
     WhatsAppMessage.document := None;
     WhatsAppMessage.video := None |}.

Definition messages_value (m : WhatsAppMessage.t) : WhatsAppValue.t :=
  {| WhatsAppValue.messaging_product := Some "whatsapp";
     WhatsAppValue.metadata := None;
     WhatsAppValue.contacts := None;
     WhatsAppValue.messages := Some [m];
     WhatsAppValue.statuses := None |}.

(** [{id, status, timestamp:"1001", recipient_id:"5551234"}] *)
Definition status_of (i s : string) : WhatsAppStatus.t :=
  {| WhatsAppStatus.id := i;
     WhatsAppStatus.meta_msg_id := None;
     WhatsAppStatus.status := s;
     WhatsAppStatus.timestamp := "1001";
     WhatsAppStatus.recipient_id := "5551234" |}.

Definition statuses_value (i s : string) : WhatsAppValue.t :=
  {| WhatsAppValue.messaging_product := Some "whatsapp";
     WhatsAppValue.metadata := None;
     WhatsAppValue.contacts := None;
     WhatsAppValue.messages := None;
     WhatsAppValue.statuses := Some [status_of i s] |}.

Definition payload (v : WhatsAppValue.t) : WebhookPayload.t :=
  {| WebhookPayload.metaData :=
       Some {| WebhookPayload.entry :=
                 Some [{| WebhookPayload.changes :=
                            Some [{| WebhookPayload.field := "messages";
                                     WebhookPayload.value := v |}] |}] |} |}.

Definition store (d : list Models.IMessage) : World :=
  {| db := d; emitted := []; console := [] |}.

(** The document [m1] is stored as, in the given status. *)
Definition stored_m1 (s : Models.Status) : Models.IMessage :=
  {| Models.conversationId := "conv_5551234";
     Models.messageId := "m1";
     Models.metaMsgId := None;
     Models.from := "5551234";
     Models.to := "918329446654";
     Models.timestamp := 1000000;
     Models.type := "text";
     Models.body := "hi";
     Models.status := s;
     Models.userName := "Unknown User";
     Models.createdAt := Some 5%Z;
     Models.updatedAt := Some 5%Z |}.

(** A message the business sent through [sendMessage] to a party that
    never wrote. *)
Definition outbound : Models.IMessage :=
  {| Models.conversationId := "conv_123";
     Models.messageId := "msg_7_k3j9x0a1b";
     Models.metaMsgId := None;
     Models.from := "918329446654";
     Models.to := "123";
     Models.timestamp := 7;
     Models.type := "text";
     Models.body := "hello";
     Models.status := Models.sent;
     Models.userName := "Business";
     Models.createdAt := Some 7%Z;
     Models.updatedAt := Some 7%Z |}.

Definition send_request : Controllers.MessageRequest :=
  {| Controllers.r_conversationId := "conv_123";
     Controllers.r_from := "918329446654";
     Controllers.r_to := "123";
     Controllers.r_body := "hello";
     Controllers.r_userName := None |}.

End Scenario.


(** ** Vocabulary of the statements on conversations *)

Module Conversation.

(** The stored messages of one conversation, in natural order. *)
Definition messages_of (c : string) (docs : list Models.IMessage)
    : list Models.IMessage :=
  filter (Controllers.in_conversation c) docs.

(** A sender name other than the literal [Business]. *)
Definition is_customer (m : Models.IMessage) : bool :=
  negb (String.eqb (Models.userName m) "Business").

(** The sender names of a list of messages, each once, in order of first
appearance. *)
Definition names (ms : list Models.IMessage) : list string :=
  fold_left (fun l m => Controllers.addToSet (Models.userName m) l) ms [].

(** The accumulators [g] are those of the non-empty list [ms] of incoming
documents. *)
Definition accumulated (ms : list Models.IMessage) (g : Controllers.group_t)
    : Prop :=
  exists ms' m,
    ms = (ms' ++ [m])%list
    /\ Controllers.lastMessage g = m
    /\ Controllers.g_messageCount g = List.length ms
    /\ Controllers.customerMessages g = map Controllers.customerMessage ms
    /\ Controllers.g_participants g = names ms.

End Conversation.

(** ** Vocabulary of the statements on the webhook pipeline *)

Module Webhook.

(** The value of the first change of the first entry: the part of a payload
[processWebhookPayload] looks at. *)
Definition value_of (p : WebhookPayload.t) : option WhatsAppValue.t :=
  match ProcessPayload.first
          (match WebhookPayload.metaData p with
           | Some md => WebhookPayload.entry md
           | None => None
           end) with
  | Some e => option_map WebhookPayload.value
                (ProcessPayload.first (WebhookPayload.changes e))
  | None => None
  end.

(** Two states of one document: everything but the status and the update
time is the same. *)
Definition same_message (m m' : Models.IMessage) : Prop :=
  Models.conversationId m = Models.conversationId m'
  /\ Models.messageId m = Models.messageId m'
  /\ Models.metaMsgId m = Models.metaMsgId m'
  /\ Models.from m = Models.from m'
  /\ Models.to m = Models.to m'
  /\ Models.timestamp m = Models.timestamp m'
  /\ Models.type m = Models.type m'
  /\ Models.body m = Models.body m'
  /\ Models.userName m = Models.userName m'
  /\ Models.createdAt m = Models.createdAt m'.

(** What [save()] refuses in [processMessage]: a timestamp that gives no
valid date, no sender, or no recipient for a message of the business. *)
Definition refused (value : WhatsAppValue.t) (message : WhatsAppMessage.t)
    : bool :=
  match Js.dateOfSeconds (Js.parseInt (WhatsAppMessage.timestamp message)) with
  | None => true
  | Some _ =>
      Js.falsy (WhatsAppMessage.from message)
      || (String.eqb (WhatsAppMessage.from message)
            (ProcessPayload.businessNumber (WhatsAppValue.metadata value))
          && Js.falsy (Js.opt_or_else (WhatsAppMessage.to message) ""))
  end.

End Webhook.

(** ** More sample payloads *)

Module Samples.

(** A message whose timestamp is not a number. *)
Definition undated : WhatsAppMessage.t :=
  {| WhatsAppMessage.id := "m4";
     WhatsAppMessage.from := "5551234";
     WhatsAppMessage.to := None;
     WhatsAppMessage.timestamp := "yesterday";
     WhatsAppMessage.type := "text";
     WhatsAppMessage.text := Some "late";
     WhatsAppMessage.image := None;
     WhatsAppMessage.document := None;
     WhatsAppMessage.video := None |}.

(** A message whose sender is the default business number written with a
leading plus sign. *)
Definition plus_business : WhatsAppMessage.t :=
  {| WhatsAppMessage.id := "m5";
     WhatsAppMessage.from := "+918329446654";
     WhatsAppMessage.to := Some "5551234";
     WhatsAppMessage.timestamp := "1020";
     WhatsAppMessage.type := "audio";
     WhatsAppMessage.text := None;
     WhatsAppMessage.image := None;
     WhatsAppMessage.document := None;
     WhatsAppMessage.video := None |}.

(** A payload that carries a message list and a status list at once. *)
Definition both (m : WhatsAppMessage.t) (i s : string) : WhatsAppValue.t :=
  {| WhatsAppValue.messaging_product := Some "whatsapp";
     WhatsAppValue.metadata := None;
     WhatsAppValue.contacts := None;
     WhatsAppValue.messages := Some [m];
     WhatsAppValue.statuses := Some [Scenario.status_of i s] |}.

End Samples.

(** ** Vocabulary of the statements on phone numbers *)

Module Phone.

Definition is_digit (c : ascii) : bool :=
  (48 <=? Js.code c)%N && (Js.code c <=? 57)%N.

(** The characters of a string. *)
Definition chars (s : string) : list ascii := list_ascii_of_string s.

(** The digits of a string, in order. *)
Definition digits_of (s : string) : list ascii := filter is_digit (chars s).


End Phone.

(** ** index.ts: the status progression run every 15 seconds *)

Module Index.

Import Models.

(** [Message.find(filter).limit(n)]: the first [n] matching documents in
natural order, each with its position in the collection, which stands for
its [_id]. *)
Fixpoint find_limit (p : IMessage -> bool) (n : nat) (pos : nat)
    (l : list IMessage) : list (nat * IMessage) :=
  match n, l with
  | O, _ => []
  | _, [] => []
  | S k, m :: r =>
      if p m then (pos, m) :: find_limit p k (S pos) r
      else find_limit p n (S pos) r
  end.

(** [Message.updateOne({ _id }, update)] *)
Fixpoint update_at (pos : nat) (f : IMessage -> IMessage) (l : list IMessage)
    : list IMessage :=
  match l, pos with
  | [], _ => []
  | m :: r, O => f m :: r
  | m :: r, S k => m :: update_at k f r
  end.

(** [{ status: 'sent', timestamp: { $lt: bound } }] *)
Definition sent_before (bound : Z) (m : IMessage) : bool :=
  Status_eqb (status m) sent && (timestamp m <? bound)%Z.

(** [{ status: 'delivered', updatedAt: { $lt: bound } }]; a document
without the field does not match. *)
Definition delivered_before (bound : Z) (m : IMessage) : bool :=
  Status_eqb (status m) delivered
  && match updatedAt m with Some u => (u <? bound)%Z | None => false end.

(** One turn of a [for (const message of ..)] loop: the update, then the
emission; each reads the clock once. The state is the number of clock
readings so far and the world. *)
Definition advance (clock : nat -> Z) (s : Status) (st : nat * World)
    (found : nat * IMessage) : nat * World :=
  let '(k, w) := st in
  let '(pos, message) := found in
  (k + 2,
   {| db := update_at pos (set_status s (clock k)) (db w);
      emitted :=
        emitted w ++
        [{| room := conversationId message;
            event := message_status_updated (messageId message) s
                       (Some (clock (k + 1))) |}];
      console := console w |}).

(** [const simulateStatusProgression = async () => ..]. [clock k] is what
the [k]-th reading of the clock ([Date.now()] or [new Date()]) returns. The
[catch] clause answers store failures, which the model does not have. *)
Definition simulateStatusProgression (clock : nat -> Z) : M unit :=
  fun w =>
    let sentMessages :=
      find_limit (sent_before (clock 0 - 10000)) 5 0 (db w) in
    let '(k, w1) := fold_left (advance clock delivered) sentMessages (1, w) in
    let deliveredMessages :=
      find_limit (delivered_before (clock k - 30000)) 3 0 (db w1) in
    let '(_, w2) :=
      fold_left (advance clock read) deliveredMessages (k + 1, w1) in
    (Returned tt, w2).

End Index.

(** ** Vocabulary of the statements on the progression *)

Module Progression.

(** Advancing the first [n] documents that match [p], the [i]-th of them
with the clock reading [k + 2 * i]. *)
Fixpoint advanced (clock : nat -> Z) (s : Models.Status)
    (p : Models.IMessage -> bool) (n k : nat) (l : list Models.IMessage)
    : list Models.IMessage :=
  match n, l with
  | O, _ => l
  | _, [] => []
  | S n', m :: r =>
      if p m then Models.set_status s (clock k) m
                  :: advanced clock s p n' (k + 2) r
      else m :: advanced clock s p n k r
  end.

End Progression.

(** ** processWebhookFiles.ts: the order in which the files are processed *)

Module ProcessWebhookFiles.

(** [s.includes(sub)] *)
Fixpoint includes (sub s : string) : bool :=
  String.prefix sub s
  || match s with
     | EmptyString => false
     | String _ r => includes sub r
     end.

(** [s.endsWith(suffix)] *)
Fixpoint endsWith (suffix s : string) : bool :=
  String.eqb s suffix
  || match s with
     | EmptyString => false
     | String _ r => endsWith suffix r
     end.

(** [names.sort()]: the default order compares strings code unit by code
unit. *)
Definition sort (names : list string) : list string :=
  Mongo.sort_by String.leb names.

(** [fs.readdirSync(filesDir).filter((file) => file.endsWith(".json"))] *)
Definition files (entries : list string) : list string :=
  filter (endsWith ".json") entries.

(** [const sortedFiles = [...messageFiles, ...statusFiles, ...otherFiles]] *)
Definition sortedFiles (entries : list string) : list string :=
  let messageFiles := sort (filter (includes "message") (files entries)) in
  let statusFiles := sort (filter (includes "status") (files entries)) in
  let otherFiles :=
    sort (filter (fun f => negb (includes "message" f)
                           && negb (includes "status" f))
            (files entries)) in
  messageFiles ++ statusFiles ++ otherFiles.

End ProcessWebhookFiles.
(** * Properties *)

Import Models.
Local Open Scope list_scope.

(** ** Facts on the primitives *)

Lemma falsy_false_iff (s : string) : Js.falsy s = false <-> s <> "".
Proof. destruct s; simpl; split; congruence. Qed.

Lemma or_else_nonempty (a b : string) : a <> "" -> Js.or_else a b = a.
Proof. destruct a; simpl; congruence. Qed.

Lemma opt_or_else_some (a b : string) :
  a <> "" -> Js.opt_or_else (Some a) b = a.
Proof. apply or_else_nonempty. Qed.

(** The strings [Status_among] accepts from the list of the handlers are
    exactly the three names. *)
Lemma Status_among_valid (str : string) (s : Status) :
  Status_among ["sent"; "delivered"; "read"] str = Some s <->
  (str = "sent" /\ s = sent) \/ (str = "delivered" /\ s = delivered)
  \/ (str = "read" /\ s = read).
Proof.
  unfold Status_among, Js.includes, Status_of_name; simpl.
  destruct (String.eqb_spec str "sent") as [->|Hs]; simpl.
  { split; [intros [= <-]; auto | intros [[_ ->]|[[? _]|[? _]]]; congruence]. }
  destruct (String.eqb_spec str "delivered") as [->|Hd]; simpl.
  { split; [intros [= <-]; auto | intros [[? _]|[[_ ->]|[? _]]]; congruence]. }
  destruct (String.eqb_spec str "read") as [->|Hr]; simpl.
  { split; [intros [= <-]; auto | intros [[? _]|[[? _]|[_ ->]]]; congruence]. }
  split; [discriminate | intros [[? _]|[[? _]|[? _]]]; congruence].
Qed.

Lemma Status_among_invalid (str : string) :
  str <> "sent" -> str <> "delivered" -> str <> "read" ->
  Status_among ["sent"; "delivered"; "read"] str = None.
Proof.
  intros Hs Hd Hr.
  destruct (Status_among _ str) as [s|] eqn:E; [|reflexivity].
  apply Status_among_valid in E.
  destruct E as [[? _]|[[? _]|[? _]]]; congruence.
Qed.

(** ** Facts on the collection operations *)


Lemma update_first_split p f l1 m l2 :
  (forall x, In x l1 -> p x = false) -> p m = true ->
  Mongo.update_first p f (l1 ++ m :: l2) = (Some (f m), l1 ++ f m :: l2).
Proof.
  intros Hl1 Hm.
  induction l1 as [|x r IH]; simpl.
  - rewrite Hm. reflexivity.
  - rewrite (Hl1 x (or_introl eq_refl)).
    rewrite IH; [reflexivity|]. intros y Hy. apply Hl1. right. exact Hy.
Qed.

Lemma update_first_length p f l :
  List.length (snd (Mongo.update_first p f l)) = List.length l.
Proof.
  induction l as [|m r IH]; simpl; [reflexivity|].
  destruct (p m); simpl; [reflexivity|].
  destruct (Mongo.update_first p f r); simpl in *. congruence.
Qed.

Lemma update_first_fst p f l :
  fst (Mongo.update_first p f l) = option_map f (find p l).
Proof.
  induction l as [|m r IH]; simpl; [reflexivity|].
  destruct (p m); simpl; [reflexivity|].
  destruct (Mongo.update_first p f r); simpl in *. exact IH.
Qed.

(** ** What the status handlers compute *)

Section StatusHandlers.

Variables (now : Z) (w : World).

(** The webhook handler on a status string that names a valid status. *)
Lemma processStatusUpdate_valid value su s :
  ProcessPayload.first (WhatsAppValue.statuses value) = Some su ->
  ProcessPayload.statusMessageId su <> ""%string ->
  Status_among ProcessPayload.validStatuses (WhatsAppStatus.status su) = Some s ->
  let i := ProcessPayload.statusMessageId su in
  let r := Mongo.update_first (Mongo.has_id i) (set_status s now) (db w) in
  ProcessPayload.processStatusUpdate now value w =
    (Returned tt,
     {| db := snd r;
        emitted := emitted w;
        console :=
          console w ++
          match fst r with
          | Some _ => [UpdatedStatus i s]
          | None =>
              [NoMessageFoundToUpdate i;
               RecentMessageIds
                 (map messageId
                    (firstn 5 (Mongo.sort_by Mongo.by_timestamp_desc (snd r))))]
          end |}).
Proof.
  intros Hfirst Hid Hvalid i r.
  apply falsy_false_iff in Hid.
  unfold ProcessPayload.processStatusUpdate, try_rethrow.
  rewrite Hfirst, Hid, Hvalid.
  unfold Mongo.updateOne, Mongo.findRecent, bind, read_db, write_db, ret, log.
  subst r i. simpl.
  destruct (Mongo.update_first _ _ (db w)) as [[u|] d']; simpl.
  - reflexivity.
  - rewrite <- app_assoc. reflexivity.
Qed.

(** The webhook handler on any other status string. *)
Lemma processStatusUpdate_invalid value su :
  ProcessPayload.first (WhatsAppValue.statuses value) = Some su ->
  ProcessPayload.statusMessageId su <> ""%string ->
  Status_among ProcessPayload.validStatuses (WhatsAppStatus.status su) = None ->
  ProcessPayload.processStatusUpdate now value w =
    (Returned tt,
     {| db := db w; emitted := emitted w;
        console := console w ++ [InvalidStatus (WhatsAppStatus.status su)] |}).
Proof.
  intros Hfirst Hid Hinvalid.
  apply falsy_false_iff in Hid.
  unfold ProcessPayload.processStatusUpdate, try_rethrow.
  rewrite Hfirst, Hid, Hinvalid. reflexivity.
Qed.

(** The direct endpoint on a status string that names a valid status. *)
Lemma updateMessageStatus_valid app i str s :
  i <> ""%string ->
  Status_among Controllers.validStatuses str = Some s ->
  let r := Mongo.update_first (Mongo.has_id i) (set_status s now) (db w) in
  Controllers.updateMessageStatus app now i str w =
    match fst r with
    | Some u =>
        (Returned {| Controllers.statusCode := 200;
                     Controllers.json := Controllers.json_message u |},
         {| db := snd r;
            emitted :=
              emitted w ++
              (if App.socketio app
               then [{| room := conversationId u;
                        event := message_status_updated i s (updatedAt u) |}]
               else []);
            console := console w |})
    | None =>
        (Returned {| Controllers.statusCode := 404;
                     Controllers.json :=
                       Controllers.json_error "Message not found" |},
         {| db := snd r; emitted := emitted w; console := console w |})
    end.
Proof.
  intros Hi Hvalid r.
  assert (Hstr : str <> ""%string).
  { intros ->. apply Status_among_valid in Hvalid.
    destruct Hvalid as [[? _]|[[? _]|[? _]]]; discriminate. }
  apply falsy_false_iff in Hi, Hstr.
  unfold Controllers.updateMessageStatus.
  rewrite Hi, Hstr, Hvalid. simpl.
  unfold try_catch, Mongo.findOneAndUpdate, bind, read_db, write_db, ret, emit.
  subst r. simpl.
  destruct (Mongo.update_first _ _ (db w)) as [[u|] d']; simpl.
  - destruct (App.socketio app); simpl; [reflexivity|].
    rewrite app_nil_r. destruct w; reflexivity.
  - reflexivity.
Qed.

(** The direct endpoint on any other status string. *)
Lemma updateMessageStatus_invalid app i str :
  Status_among Controllers.validStatuses str = None ->
  exists msg,
    Controllers.updateMessageStatus app now i str w =
      (Returned {| Controllers.statusCode := 400;
                   Controllers.json := Controllers.json_error msg |}, w).
Proof.
  intros Hinvalid.
  unfold Controllers.updateMessageStatus.
  destruct (Js.falsy i || Js.falsy str).
  - eexists. reflexivity.
  - rewrite Hinvalid. eexists. reflexivity.
Qed.

End StatusHandlers.

(** ** What the new-message handler computes *)

Lemma businessNumber_nonempty metadata :
  ProcessPayload.businessNumber metadata <> ""%string.
Proof.
  unfold ProcessPayload.businessNumber.
  destruct metadata as [[d p]|]; simpl; [|discriminate].
  destruct p; simpl; [|discriminate].
  destruct d; simpl; discriminate.
Qed.

Section MessageHandler.

Variables (now : Z) (w : World) (value : WhatsAppValue.t).
Variable message : WhatsAppMessage.t.
Hypothesis Hfirst :
  ProcessPayload.first (WhatsAppValue.messages value) = Some message.
Hypothesis Hid : WhatsAppMessage.id message <> ""%string.

Let bn := ProcessPayload.businessNumber (WhatsAppValue.metadata value).

(** The identifier is already stored: one log line, nothing else. *)
Lemma processMessage_duplicate existing :
  find (Mongo.has_id (WhatsAppMessage.id message)) (db w) = Some existing ->
  ProcessPayload.processMessage now value w =
    (Returned tt,
     {| db := db w; emitted := emitted w;
        console := console w ++ [AlreadyExists (WhatsAppMessage.id message)] |}).
Proof.
  intros Hfind.
  apply falsy_false_iff in Hid.
  unfold ProcessPayload.processMessage, try_rethrow.
  rewrite Hfirst, Hid.
  unfold Mongo.findOne, bind, read_db, ret, log. simpl.
  rewrite Hfind. reflexivity.
Qed.

(** The identifier is new and the document passes validation: it is
    appended to the collection. *)
Lemma processMessage_fresh t :
  find (Mongo.has_id (WhatsAppMessage.id message)) (db w) = None ->
  Js.dateOfSeconds (Js.parseInt (WhatsAppMessage.timestamp message)) = Some t ->
  WhatsAppMessage.from message <> ""%string ->
  (WhatsAppMessage.from message = bn ->
   exists u, WhatsAppMessage.to message = Some u /\ u <> ""%string) ->
  let r :=
    Mongo.stamped now
      (ProcessPayload.newMessage (WhatsAppValue.metadata value)
         (ProcessPayload.first (WhatsAppValue.contacts value)) message t) in
  ProcessPayload.processMessage now value w =
    (Returned tt,
     {| db := db w ++ [r]; emitted := emitted w;
        console :=
          console w ++
          [Inserted (WhatsAppMessage.id message) (userName r);
           Content (ProcessPayload.shown (ProcessPayload.messageBody message))] |}).
Proof.
  intros Hfind Hdate Hfrom Hto r.
  assert (Hreq : required_ok
                   (ProcessPayload.newMessage (WhatsAppValue.metadata value)
                      (ProcessPayload.first (WhatsAppValue.contacts value))
                      message t) = true).
  { unfold required_ok, ProcessPayload.newMessage. cbn [conversationId messageId from to type].
    fold bn.
    apply falsy_false_iff in Hid, Hfrom. rewrite Hid, Hfrom.
    assert (Hty : Js.falsy (Js.or_else (WhatsAppMessage.type message) "text") = false)
      by (destruct (WhatsAppMessage.type message); reflexivity).
    rewrite Hty.
    assert (Hto' : Js.falsy
              (if String.eqb (WhatsAppMessage.from message) bn
               then ProcessPayload.userNumber bn message else bn) = false).
    { destruct (String.eqb_spec (WhatsAppMessage.from message) bn) as [E|E].
      - destruct (Hto E) as (u & Hu & Hne).
        unfold ProcessPayload.userNumber.
        rewrite E, String.eqb_refl, Hu. simpl.
        rewrite or_else_nonempty by exact Hne.
        apply falsy_false_iff. exact Hne.
      - apply falsy_false_iff. apply businessNumber_nonempty. }
    rewrite Hto'. reflexivity. }
  apply falsy_false_iff in Hid.
  unfold ProcessPayload.processMessage, try_rethrow.
  rewrite Hfirst, Hid.
  unfold Mongo.findOne, bind, read_db, ret. simpl.
  rewrite Hfind, Hdate.
  unfold Mongo.save. rewrite Hreq.
  unfold bind, read_db, write_db, ret, log. simpl.
  rewrite <- app_assoc. reflexivity.
Qed.

End MessageHandler.

(** ** Status transitions *)

(** The webhook handler without a usable identifier. *)
Lemma processStatusUpdate_no_id now w value su :
  ProcessPayload.first (WhatsAppValue.statuses value) = Some su ->
  ProcessPayload.statusMessageId su = ""%string ->
  ProcessPayload.processStatusUpdate now value w =
    (Returned tt,
     {| db := db w; emitted := emitted w;
        console := console w ++ [NoMessageIdInStatus] |}).
Proof.
  intros Hfirst Hid.
  unfold ProcessPayload.processStatusUpdate, try_rethrow.
  rewrite Hfirst, Hid. reflexivity.
Qed.

(** The webhook status handler publishes nothing, whatever it receives. *)
Lemma processStatusUpdate_emitted now w value :
  emitted (snd (ProcessPayload.processStatusUpdate now value w)) = emitted w.
Proof.
  destruct (ProcessPayload.first (WhatsAppValue.statuses value)) as [su|] eqn:Hfirst.
  - destruct (string_dec (ProcessPayload.statusMessageId su) "") as [Hid|Hid].
    + rewrite (processStatusUpdate_no_id now w value su Hfirst Hid). reflexivity.
    + destruct (Status_among ProcessPayload.validStatuses (WhatsAppStatus.status su))
        as [s|] eqn:Hs.
      * rewrite (processStatusUpdate_valid now w value su s Hfirst Hid Hs). reflexivity.
      * rewrite (processStatusUpdate_invalid now w value su Hfirst Hid Hs). reflexivity.
  - unfold ProcessPayload.processStatusUpdate, try_rethrow.
    rewrite Hfirst. reflexivity.
Qed.

(** C1 (as the code has it). A status request naming sent, delivered or read
    overwrites the status of the first stored message with the target
    identifier, whatever that status was, and stamps the update time; every
    other document stays as it was. This holds on the webhook path and on
    the direct endpoint: neither compares the requested status with the
    stored one. *)
Theorem status_update_overwrites
    (now : Z) (w : World) (app : App.t) (value : WhatsAppValue.t)
    (su : WhatsAppStatus.t) (s : Status) (l1 l2 : list IMessage) (m : IMessage) :
  ProcessPayload.first (WhatsAppValue.statuses value) = Some su ->
  ProcessPayload.statusMessageId su <> ""%string ->
  Status_among ProcessPayload.validStatuses (WhatsAppStatus.status su) = Some s ->
  db w = l1 ++ m :: l2 ->
  messageId m = ProcessPayload.statusMessageId su ->
  (forall x, In x l1 -> messageId x <> ProcessPayload.statusMessageId su) ->
  db (snd (ProcessPayload.processStatusUpdate now value w))
    = l1 ++ set_status s now m :: l2
  /\ db (snd (Controllers.updateMessageStatus app now
                (ProcessPayload.statusMessageId su) (WhatsAppStatus.status su) w))
    = l1 ++ set_status s now m :: l2
  /\ status (set_status s now m) = s
  /\ updatedAt (set_status s now m) = Some now.
Proof.
  intros Hfirst Hid Hvalid Hdb Hm Hl1.
  assert (Hupd : Mongo.update_first
                   (Mongo.has_id (ProcessPayload.statusMessageId su))
                   (set_status s now) (db w)
                 = (Some (set_status s now m), l1 ++ set_status s now m :: l2)).
  { rewrite Hdb. apply update_first_split.
    - intros x Hx. unfold Mongo.has_id. apply String.eqb_neq. apply Hl1, Hx.
    - unfold Mongo.has_id. apply String.eqb_eq. exact Hm. }
  repeat split.
  - rewrite (processStatusUpdate_valid now w value su s Hfirst Hid Hvalid).
    cbn [snd db]. rewrite Hupd. reflexivity.
  - rewrite (updateMessageStatus_valid now w app _ _ s Hid Hvalid).
    cbv zeta. rewrite Hupd. reflexivity.
Qed.

Lemma status_update_overwrites_witness :
  ProcessPayload.first
    (WhatsAppValue.statuses (Scenario.statuses_value "m1" "sent"))
    = Some (Scenario.status_of "m1" "sent")
  /\ db (snd (ProcessPayload.processStatusUpdate 2000
                (Scenario.statuses_value "m1" "sent")
                (Scenario.store [Scenario.stored_m1 read])))
     = [] ++ set_status sent 2000 (Scenario.stored_m1 read) :: [].
Proof.
  split; [reflexivity|].
  apply (status_update_overwrites 2000
           (Scenario.store [Scenario.stored_m1 read]) App.app
           (Scenario.statuses_value "m1" "sent")
           (Scenario.status_of "m1" "sent") sent [] [] (Scenario.stored_m1 read)).
  - reflexivity.
  - discriminate.
  - reflexivity.
  - reflexivity.
  - reflexivity.
  - intros x [].
Defined.

(** C1 (as stated) fails: a message that was read goes back to sent, on the
    webhook path and on the direct endpoint alike. *)
Lemma status_moves_backward :
  ~ (forall (now : Z) (value : WhatsAppValue.t) (w : World) (n : nat)
            (m m' : IMessage),
        nth_error (db w) n = Some m ->
        nth_error (db (snd (ProcessPayload.processStatusUpdate now value w))) n
          = Some m' ->
        rank (status m) <= rank (status m'))
  /\ ~ (forall (now : Z) (i str : string) (w : World) (n : nat)
               (m m' : IMessage),
        nth_error (db w) n = Some m ->
        nth_error
          (db (snd (Controllers.updateMessageStatus App.app now i str w))) n
          = Some m' ->
        rank (status m) <= rank (status m')).
Proof.
  split; intros H.
  - specialize (H 2000%Z (Scenario.statuses_value "m1" "sent")
                  (Scenario.store [Scenario.stored_m1 read]) 0
                  (Scenario.stored_m1 read)
                  (set_status sent 2000 (Scenario.stored_m1 read))
                  eq_refl eq_refl).
    simpl in H. lia.
  - specialize (H 2000%Z "m1"%string "sent"%string
                  (Scenario.store [Scenario.stored_m1 read]) 0
                  (Scenario.stored_m1 read)
                  (set_status sent 2000 (Scenario.stored_m1 read))
                  eq_refl eq_refl).
    simpl in H. lia.
Qed.

(** C6. A status string other than sent, delivered and read is turned down
    before any write: on the webhook path the handler returns with the store
    and the emissions as they were and logs the invalid status; on the
    direct endpoint the answer is a 400 and the world is untouched. A
    request with a valid status ends differently on the same world: with
    another log line on the webhook path, with a 200 or a 404 on the direct
    endpoint. *)
Theorem invalid_status_is_rejected
    (now : Z) (w : World) (app : App.t) (str : string) :
  str <> "sent"%string -> str <> "delivered"%string -> str <> "read"%string ->
  (forall value su,
      ProcessPayload.first (WhatsAppValue.statuses value) = Some su ->
      WhatsAppStatus.status su = str ->
      let res := ProcessPayload.processStatusUpdate now value w in
      fst res = Returned tt
      /\ db (snd res) = db w
      /\ emitted (snd res) = emitted w
      /\ (ProcessPayload.statusMessageId su <> ""%string ->
          console (snd res) = console w ++ [InvalidStatus str]))
  /\ (forall i, exists msg,
        Controllers.updateMessageStatus app now i str w =
          (Returned {| Controllers.statusCode := 400;
                       Controllers.json := Controllers.json_error msg |}, w))
  /\ (forall value su s,
        ProcessPayload.first (WhatsAppValue.statuses value) = Some su ->
        ProcessPayload.statusMessageId su <> ""%string ->
        Status_among ProcessPayload.validStatuses (WhatsAppStatus.status su)
          = Some s ->
        console (snd (ProcessPayload.processStatusUpdate now value w))
          <> console w ++ [InvalidStatus str])
  /\ (forall i str' s,
        i <> ""%string ->
        Status_among Controllers.validStatuses str' = Some s ->
        exists resp,
          fst (Controllers.updateMessageStatus app now i str' w) = Returned resp
          /\ (Controllers.statusCode resp = 200
              \/ Controllers.statusCode resp = 404)).
Proof.
  intros Hs Hd Hr.
  pose proof (Status_among_invalid str Hs Hd Hr) as Hinv.
  split; [|split; [|split]].
  - intros value su Hfirst Hstr res. subst res.
    destruct (string_dec (ProcessPayload.statusMessageId su) "") as [Hid|Hid].
    + rewrite (processStatusUpdate_no_id now w value su Hfirst Hid).
      simpl. repeat split; try reflexivity. intros Hne. contradiction.
    + rewrite (processStatusUpdate_invalid now w value su Hfirst Hid)
        by (rewrite Hstr; exact Hinv).
      simpl. rewrite Hstr. repeat split; reflexivity.
  - intros i. apply updateMessageStatus_invalid. exact Hinv.
  - intros value su s Hfirst Hid Hvalid.
    rewrite (processStatusUpdate_valid now w value su s Hfirst Hid Hvalid).
    cbn [snd console].
    intros Heq. apply app_inv_head in Heq.
    destruct (fst _); discriminate.
  - intros i str' s Hi Hvalid.
    rewrite (updateMessageStatus_valid now w app i str' s Hi Hvalid).
    cbv zeta.
    destruct (fst (Mongo.update_first _ _ _));
      eexists; (split; [reflexivity|]); simpl; auto.
Qed.

Lemma invalid_status_is_rejected_witness :
  exists msg,
    Controllers.updateMessageStatus App.app 2000 "m1" "failed"
      (Scenario.store [Scenario.stored_m1 sent]) =
      (Returned {| Controllers.statusCode := 400;
                   Controllers.json := Controllers.json_error msg |},
       Scenario.store [Scenario.stored_m1 sent]).
Proof.
  apply (invalid_status_is_rejected 2000
           (Scenario.store [Scenario.stored_m1 sent]) App.app "failed");
    discriminate.
Defined.




(** ** New messages *)

(** The webhook message handler publishes nothing, whatever it receives. *)
Lemma processMessage_emitted now w value :
  emitted (snd (ProcessPayload.processMessage now value w)) = emitted w.
Proof.
  unfold ProcessPayload.processMessage, try_rethrow.
  destruct (ProcessPayload.first (WhatsAppValue.messages value)) as [message|];
    [|reflexivity].
  destruct (Js.falsy (WhatsAppMessage.id message)); [reflexivity|].
  unfold Mongo.findOne, bind, read_db, ret. simpl.
  destruct (find _ (db w)); [reflexivity|].
  destruct (Js.dateOfSeconds _); [|reflexivity].
  unfold Mongo.save.
  destruct (required_ok _); reflexivity.
Qed.

(** C4. When the identifier of the incoming message is already stored, the
    handler returns normally with the collection exactly as it was (same
    documents, same fields, same number) and nothing published; its only
    trace is one log line. *)
Theorem duplicate_message_is_noop
    (now : Z) (w : World) (value : WhatsAppValue.t)
    (message : WhatsAppMessage.t) (existing : IMessage) :
  ProcessPayload.first (WhatsAppValue.messages value) = Some message ->
  find (Mongo.has_id (WhatsAppMessage.id message)) (db w) = Some existing ->
  ProcessPayload.processMessage now value w =
    (Returned tt,
     {| db := db w; emitted := emitted w;
        console :=
          console w ++
          [if Js.falsy (WhatsAppMessage.id message) then InvalidMessageData
           else AlreadyExists (WhatsAppMessage.id message)] |}).
Proof.
  intros Hfirst Hfind.
  destruct (string_dec (WhatsAppMessage.id message) "") as [Hid|Hid].
  - unfold ProcessPayload.processMessage, try_rethrow.
    rewrite Hfirst, Hid. reflexivity.
  - rewrite (processMessage_duplicate now w value message Hfirst Hid existing Hfind).
    apply falsy_false_iff in Hid. rewrite Hid. reflexivity.
Qed.

Lemma duplicate_message_is_noop_witness :
  find (Mongo.has_id "m1") (db (Scenario.store [Scenario.stored_m1 delivered]))
    = Some (Scenario.stored_m1 delivered)
  /\ ProcessPayload.processMessage 9 (Scenario.messages_value Scenario.m1)
       (Scenario.store [Scenario.stored_m1 delivered])
     = (Returned tt,
        {| db := [Scenario.stored_m1 delivered]; emitted := [];
           console := [AlreadyExists "m1"] |}).
Proof.
  split; [reflexivity|].
  exact (duplicate_message_is_noop 9
           (Scenario.store [Scenario.stored_m1 delivered])
           (Scenario.messages_value Scenario.m1) Scenario.m1
           (Scenario.stored_m1 delivered) eq_refl eq_refl).
Defined.

(** C2. A message with a non-empty identifier that is not stored yet, a
    sender, a readable timestamp and (when the business is the sender) a
    recipient is stored as exactly one new document, in status sent. Its
    conversation key is [conv_] followed by the number of the other party:
    the sender when the sender is not the business number, the recipient
    when it is. *)
Theorem new_message_is_stored_once
    (now : Z) (w : World) (value : WhatsAppValue.t)
    (message : WhatsAppMessage.t) (t : Z) :
  ProcessPayload.first (WhatsAppValue.messages value) = Some message ->
  WhatsAppMessage.id message <> ""%string ->
  find (Mongo.has_id (WhatsAppMessage.id message)) (db w) = None ->
  Js.dateOfSeconds (Js.parseInt (WhatsAppMessage.timestamp message)) = Some t ->
  WhatsAppMessage.from message <> ""%string ->
  (WhatsAppMessage.from message
     = ProcessPayload.businessNumber (WhatsAppValue.metadata value) ->
   exists u, WhatsAppMessage.to message = Some u /\ u <> ""%string) ->
  exists r,
    fst (ProcessPayload.processMessage now value w) = Returned tt
    /\ db (snd (ProcessPayload.processMessage now value w)) = db w ++ [r]
    /\ messageId r = WhatsAppMessage.id message
    /\ status r = sent
    /\ List.length (filter (Mongo.has_id (WhatsAppMessage.id message))
                      (db w ++ [r])) = 1
    /\ (WhatsAppMessage.from message
          <> ProcessPayload.businessNumber (WhatsAppValue.metadata value) ->
        conversationId r = ("conv_" ++ WhatsAppMessage.from message)%string)
    /\ (forall u,
          WhatsAppMessage.from message
            = ProcessPayload.businessNumber (WhatsAppValue.metadata value) ->
          WhatsAppMessage.to message = Some u ->
          conversationId r = ("conv_" ++ u)%string).
Proof.
  intros Hfirst Hid Hfind Hdate Hfrom Hto.
  eexists.
  rewrite (processMessage_fresh now w value message Hfirst Hid t
             Hfind Hdate Hfrom Hto).
  cbv zeta.
  split; [reflexivity|]. split; [reflexivity|].
  split; [reflexivity|]. split; [reflexivity|].
  split; [|split].
  - rewrite filter_app. simpl.
    assert (Hnone : filter (Mongo.has_id (WhatsAppMessage.id message)) (db w) = []).
    { clear - Hfind. induction (db w) as [|x d IH]; simpl in *; [reflexivity|].
      destruct (Mongo.has_id _ x); [discriminate|]. apply IH, Hfind. }
    rewrite Hnone. unfold Mongo.has_id at 1. simpl.
    rewrite String.eqb_refl. reflexivity.
  - intros Hne. simpl. unfold ProcessPayload.userNumber.
    apply String.eqb_neq in Hne. rewrite Hne. reflexivity.
  - intros u He Hu. simpl. unfold ProcessPayload.userNumber.
    destruct (Hto He) as (u' & Hu' & Hne).
    rewrite He, String.eqb_refl, Hu. simpl.
    rewrite Hu in Hu'. injection Hu' as <-.
    rewrite or_else_nonempty by exact Hne. reflexivity.
Qed.

Lemma new_message_is_stored_once_witness :
  exists r,
    fst (ProcessPayload.processMessage 5 (Scenario.messages_value Scenario.m2)
           (Scenario.store [Scenario.stored_m1 sent])) = Returned tt
    /\ db (snd (ProcessPayload.processMessage 5
                  (Scenario.messages_value Scenario.m2)
                  (Scenario.store [Scenario.stored_m1 sent])))
       = [Scenario.stored_m1 sent] ++ [r]
    /\ messageId r = "m2"%string
    /\ status r = sent
    /\ conversationId r = "conv_5551234"%string.
Proof.
  assert (Hdate : Js.dateOfSeconds
                    (Js.parseInt (WhatsAppMessage.timestamp Scenario.m2))
                  = Some 1005000%Z) by (vm_compute; reflexivity).
  assert (Hto : WhatsAppMessage.from Scenario.m2
                  = ProcessPayload.businessNumber
                      (WhatsAppValue.metadata
                         (Scenario.messages_value Scenario.m2)) ->
                exists u, WhatsAppMessage.to Scenario.m2 = Some u
                          /\ u <> ""%string).
  { intros _. exists "5551234"%string. split; [reflexivity|discriminate]. }
  assert (Hid : WhatsAppMessage.id Scenario.m2 <> ""%string) by discriminate.
  assert (Hfrom : WhatsAppMessage.from Scenario.m2 <> ""%string) by discriminate.
  destruct (new_message_is_stored_once 5
              (Scenario.store [Scenario.stored_m1 sent])
              (Scenario.messages_value Scenario.m2) Scenario.m2 1005000
              eq_refl Hid eq_refl Hdate Hfrom Hto)
    as (r & H1 & H2 & H3 & H4 & _ & _ & H7).
  exists r.
  repeat split; try assumption.
  exact (H7 "5551234"%string eq_refl eq_refl).
Defined.

(** C10. For a new-message envelope that is stored, the business number
    is read off [value.metadata]: [phone_number_id] when it is not empty,
    otherwise [display_phone_number] when that is not empty, otherwise the
    literal 918329446654 (also without metadata). The sender is compared
    with it as it stands: when the two strings differ the stored document is
    keyed by the sender, character for character, has the business number
    as recipient and is not named [Business]; when they are equal it is
    keyed by the recipient. No normalisation takes part: a sender written
    [+5551234] is stored under [conv_+5551234], where the helper
    [getConversationId] would give [conv_5551234]. *)
Theorem business_number_decides_the_stored_key
    (now : Z) (w : World) (value : WhatsAppValue.t)
    (message : WhatsAppMessage.t) (t : Z) :
  ProcessPayload.first (WhatsAppValue.messages value) = Some message ->
  WhatsAppMessage.id message <> ""%string ->
  find (Mongo.has_id (WhatsAppMessage.id message)) (db w) = None ->
  Js.dateOfSeconds (Js.parseInt (WhatsAppMessage.timestamp message)) = Some t ->
  WhatsAppMessage.from message <> ""%string ->
  (WhatsAppMessage.from message
     = ProcessPayload.businessNumber (WhatsAppValue.metadata value) ->
   exists u, WhatsAppMessage.to message = Some u /\ u <> ""%string) ->
  let b := ProcessPayload.businessNumber (WhatsAppValue.metadata value) in
  (forall md, WhatsAppValue.metadata value = Some md ->
              WhatsAppMetadata.phone_number_id md <> ""%string ->
              b = WhatsAppMetadata.phone_number_id md)
  /\ (forall md, WhatsAppValue.metadata value = Some md ->
                 WhatsAppMetadata.phone_number_id md = ""%string ->
                 WhatsAppMetadata.display_phone_number md <> ""%string ->
                 b = WhatsAppMetadata.display_phone_number md)
  /\ (forall md, WhatsAppValue.metadata value = Some md ->
                 WhatsAppMetadata.phone_number_id md = ""%string ->
                 WhatsAppMetadata.display_phone_number md = ""%string ->
                 b = "918329446654"%string)
  /\ (WhatsAppValue.metadata value = None -> b = "918329446654"%string)
  /\ (exists r,
        db (snd (ProcessPayload.processMessage now value w)) = db w ++ [r]
        /\ from r = WhatsAppMessage.from message
        /\ (WhatsAppMessage.from message <> b ->
            conversationId r = ("conv_" ++ WhatsAppMessage.from message)%string
            /\ to r = b
            /\ (ProcessPayload.first (WhatsAppValue.contacts value) = None ->
                userName r = "Unknown User"%string))
        /\ (WhatsAppMessage.from message = b ->
            forall u, WhatsAppMessage.to message = Some u ->
                      conversationId r = ("conv_" ++ u)%string
                      /\ to r = u
                      /\ (ProcessPayload.first (WhatsAppValue.contacts value)
                            = None ->
                          userName r = "Business"%string)))
  /\ map conversationId
       (db (snd (ProcessPayload.processMessage now
                   (Scenario.messages_value Scenario.m3) (Scenario.store []))))
     = ["conv_+5551234"%string]
  /\ ProcessPayload.getConversationId (WhatsAppMessage.from Scenario.m3)
       (ProcessPayload.businessNumber
          (WhatsAppValue.metadata (Scenario.messages_value Scenario.m3)))
     = "conv_5551234"%string.
Proof.
  intros Hfirst Hid Hfind Hdate Hfrom Hto b.
  split; [|split; [|split; [|split; [|split; [|split]]]]].
  - intros md Hmd Hp. subst b. rewrite Hmd.
    unfold ProcessPayload.businessNumber. simpl.
    apply or_else_nonempty, Hp.
  - intros md Hmd Hp Hd. subst b. rewrite Hmd.
    unfold ProcessPayload.businessNumber. simpl. rewrite Hp. simpl.
    apply or_else_nonempty, Hd.
  - intros md Hmd Hp Hd. subst b. rewrite Hmd.
    unfold ProcessPayload.businessNumber. simpl. rewrite Hp, Hd. reflexivity.
  - intros Hmd. subst b. rewrite Hmd. reflexivity.
  - eexists.
    rewrite (processMessage_fresh now w value message Hfirst Hid t
               Hfind Hdate Hfrom Hto).
    cbv zeta. split; [reflexivity|]. split; [reflexivity|].
    unfold ProcessPayload.newMessage, ProcessPayload.userNumber, Mongo.stamped.
    cbn [conversationId to userName]. fold b. split.
    + intros Hne. apply String.eqb_neq in Hne. rewrite Hne. cbn [negb].
      split; [reflexivity|]. split; [reflexivity|].
      intros ->. reflexivity.
    + intros He u Hu. destruct (Hto He) as (u' & Hu' & Hne).
      rewrite Hu in Hu'. injection Hu' as <-.
      apply String.eqb_eq in He. rewrite He, Hu. cbn [negb Js.opt_or_else].
      rewrite (or_else_nonempty u "" Hne).
      split; [reflexivity|]. split; [reflexivity|].
      intros ->. reflexivity.
  - vm_compute. reflexivity.
  - vm_compute. reflexivity.
Qed.

Lemma business_number_decides_the_stored_key_witness :
  exists r,
    db (snd (ProcessPayload.processMessage 5
               (Scenario.messages_value Samples.plus_business)
               (Scenario.store [Scenario.stored_m1 sent])))
    = db (Scenario.store [Scenario.stored_m1 sent]) ++ [r]
    /\ conversationId r = "conv_+918329446654"%string
    /\ to r = "918329446654"%string
    /\ userName r = "Unknown User"%string.
Proof.
  assert (Hdate : Js.dateOfSeconds
                    (Js.parseInt (WhatsAppMessage.timestamp Samples.plus_business))
                  = Some 1020000%Z) by (vm_compute; reflexivity).
  assert (Hid : WhatsAppMessage.id Samples.plus_business <> ""%string)
    by discriminate.
  assert (Hfrom : WhatsAppMessage.from Samples.plus_business <> ""%string)
    by discriminate.
  assert (Hto : WhatsAppMessage.from Samples.plus_business
                  = ProcessPayload.businessNumber
                      (WhatsAppValue.metadata
                         (Scenario.messages_value Samples.plus_business)) ->
                exists u, WhatsAppMessage.to Samples.plus_business = Some u
                          /\ u <> ""%string) by discriminate.
  destruct (business_number_decides_the_stored_key 5
              (Scenario.store [Scenario.stored_m1 sent])
              (Scenario.messages_value Samples.plus_business)
              Samples.plus_business 1020000
              eq_refl Hid eq_refl Hdate Hfrom Hto)
    as (_ & _ & _ & _ & (r & Hdb & _ & Hother & _) & _).
  exists r. split; [exact Hdb|].
  destruct Hother as (Hc & Ht & Hu); [discriminate|].
  split; [exact Hc|]. split; [exact Ht|]. apply Hu. reflexivity.
Defined.




(** ** What the webhook path does not publish *)

(** C3 (where the code departs from it). The status envelope for [m1] sets
    the stored status to delivered and publishes nothing, while the direct
    endpoint, on the same store and request, publishes
    [message-status-updated] to the room of the conversation. *)
Theorem webhook_status_update_not_published :
  let w := Scenario.store [Scenario.stored_m1 sent] in
  ProcessPayload.processWebhookPayload 1001
    (Scenario.payload (Scenario.statuses_value "m1" "delivered")) w
  = (Returned tt,
     {| db := [set_status delivered 1001 (Scenario.stored_m1 sent)];
        emitted := [];
        console := [UpdatedStatus "m1" delivered] |})
  /\ emitted (snd (Controllers.updateMessageStatus App.app 1001 "m1"
                     "delivered" w))
     = [{| room := "conv_5551234";
           event := message_status_updated "m1" delivered (Some 1001%Z) |}].
Proof. split; reflexivity. Qed.

(** C8 (where the code departs from it). The new-message envelope for [m1]
    stores the document and publishes nothing, while [sendMessage] publishes
    the document it saved as [new-message] to the room of its
    conversation. *)
Theorem webhook_new_message_not_published :
  ProcessPayload.processWebhookPayload 5
    (Scenario.payload (Scenario.messages_value Scenario.m1)) (Scenario.store [])
  = (Returned tt,
     {| db := [Scenario.stored_m1 sent];
        emitted := [];
        console := [Inserted "m1" "Unknown User"; Content "hi"] |})
  /\ (let res := Controllers.sendMessage App.app 7 "k3j9x0a1b"
                   Scenario.send_request (Scenario.store []) in
      db (snd res) = [Scenario.outbound]
      /\ emitted (snd res)
         = [{| room := "conv_123"; event := new_message Scenario.outbound |}]).
Proof. split; [vm_compute; reflexivity|]. split; vm_compute; reflexivity. Qed.

(** ** Conversation summaries *)

(** C9 (where the code departs from it). For a conversation that holds only
    messages of the business, the list of customer entries is empty once the
    nulls are filtered out, so [$arrayElemAt] yields no value; the guard
    [$eq: ['$$customer', null]] compares that missing value with [null],
    which is false, and the branch building ["+" ++ number] is not taken:
    the summary comes without a [userName]. *)
Theorem business_only_conversation_has_no_name :
  Controllers.aggregate [Scenario.outbound]
  = [{| Controllers.conversationId := "conv_123";
        Controllers.userName := None;
        Controllers.lastMessageBody := "hello";
        Controllers.lastTimestamp := 7;
        Controllers.messageCount := 1;
        Controllers.participants := ["Business"%string] |}]
  /\ Controllers.userName (Controllers.project (Controllers.new_group Scenario.outbound))
     <> Some "+123"%string.
Proof. split; [reflexivity|discriminate]. Qed.

(** * Further properties of the collection operations and the endpoints *)

(** ** Sorting *)

Section SortFacts.

Context {A : Type} (le : A -> A -> bool).
Hypothesis le_total : forall a b, le a b = true \/ le b a = true.
Hypothesis le_trans :
  forall a b c, le a b = true -> le b c = true -> le a c = true.

Let R (a b : A) : Prop := le a b = true.

Lemma insert_by_Permutation (x : A) (l : list A) :
  Permutation (Mongo.insert_by le x l) (x :: l).
Proof.
  induction l as [|y r IH]; simpl.
  - apply Permutation_refl.
  - destruct (le x y).
    + apply Permutation_refl.
    + apply perm_trans with (y :: x :: r).
      * apply perm_skip, IH.
      * apply perm_swap.
Qed.

Lemma sort_by_Permutation (l : list A) : Permutation (Mongo.sort_by le l) l.
Proof.
  induction l as [|x r IH]; simpl.
  - apply perm_nil.
  - apply perm_trans with (x :: Mongo.sort_by le r).
    + apply insert_by_Permutation.
    + apply perm_skip, IH.
Qed.

Lemma insert_by_StronglySorted (x : A) (l : list A) :
  StronglySorted R l -> StronglySorted R (Mongo.insert_by le x l).
Proof.
  induction 1 as [|y r Hr IH Hy]; simpl.
  - constructor; constructor.
  - destruct (le x y) eqn:E.
    + constructor.
      * constructor; assumption.
      * constructor; [exact E|].
        apply Forall_forall. intros z Hz.
        apply (le_trans x y z E).
        rewrite Forall_forall in Hy. apply Hy, Hz.
    + constructor; [exact IH|].
      apply Forall_forall. intros z Hz.
      apply (Permutation_in _ (insert_by_Permutation x r)) in Hz.
      destruct Hz as [<-|Hz].
      * destruct (le_total x y) as [F|F]; [congruence|exact F].
      * rewrite Forall_forall in Hy. apply Hy, Hz.
Qed.

Lemma sort_by_StronglySorted (l : list A) :
  StronglySorted R (Mongo.sort_by le l).
Proof.
  induction l as [|x r IH]; simpl.
  - constructor.
  - apply insert_by_StronglySorted, IH.
Qed.

(** Selecting from a sorted list and then inserting is inserting and then
selecting: the sort keeps equal keys in their order. *)
Lemma filter_insert_by (p : A -> bool) (x : A) (l : list A) :
  StronglySorted R l ->
  filter p (Mongo.insert_by le x l) =
  if p x then Mongo.insert_by le x (filter p l) else filter p l.
Proof.
  induction 1 as [|y r Hr IH Hy]; simpl.
  - destruct (p x); reflexivity.
  - destruct (le x y) eqn:E.
    + simpl. destruct (p x) eqn:Px; [|reflexivity].
      destruct (p y) eqn:Py.
      * simpl. rewrite E. reflexivity.
      * assert (Hall : Forall (R x) (filter p r)).
        { apply Forall_forall. intros z Hz. apply filter_In in Hz.
          rewrite Forall_forall in Hy.
          apply (le_trans x y z E), Hy, Hz. }
        destruct (filter p r) as [|z t]; simpl; [reflexivity|].
        inversion Hall as [|? ? Hz _]; subst. unfold R in Hz. rewrite Hz.
        reflexivity.
    + simpl. rewrite IH.
      destruct (p y) eqn:Py; destruct (p x) eqn:Px; simpl;
        try rewrite E; reflexivity.
Qed.

Lemma filter_sort_by (p : A -> bool) (l : list A) :
  filter p (Mongo.sort_by le l) = Mongo.sort_by le (filter p l).
Proof.
  induction l as [|x r IH]; simpl; [reflexivity|].
  rewrite filter_insert_by by apply sort_by_StronglySorted.
  rewrite IH. destruct (p x); reflexivity.
Qed.

End SortFacts.

Lemma by_timestamp_asc_total a b :
  Mongo.by_timestamp_asc a b = true \/ Mongo.by_timestamp_asc b a = true.
Proof. unfold Mongo.by_timestamp_asc. rewrite !Z.leb_le. lia. Qed.

Lemma by_timestamp_asc_trans a b c :
  Mongo.by_timestamp_asc a b = true -> Mongo.by_timestamp_asc b c = true ->
  Mongo.by_timestamp_asc a c = true.
Proof. unfold Mongo.by_timestamp_asc. rewrite !Z.leb_le. lia. Qed.

Lemma by_timestamp_desc_total a b :
  Mongo.by_timestamp_desc a b = true \/ Mongo.by_timestamp_desc b a = true.
Proof. unfold Mongo.by_timestamp_desc. rewrite !Z.leb_le. lia. Qed.

Lemma by_timestamp_desc_trans a b c :
  Mongo.by_timestamp_desc a b = true -> Mongo.by_timestamp_desc b c = true ->
  Mongo.by_timestamp_desc a c = true.
Proof. unfold Mongo.by_timestamp_desc. rewrite !Z.leb_le. lia. Qed.

Lemma by_lastTimestamp_desc_total a b :
  Controllers.by_lastTimestamp_desc a b = true
  \/ Controllers.by_lastTimestamp_desc b a = true.
Proof. unfold Controllers.by_lastTimestamp_desc. rewrite !Z.leb_le. lia. Qed.

Lemma by_lastTimestamp_desc_trans a b c :
  Controllers.by_lastTimestamp_desc a b = true ->
  Controllers.by_lastTimestamp_desc b c = true ->
  Controllers.by_lastTimestamp_desc a c = true.
Proof. unfold Controllers.by_lastTimestamp_desc. rewrite !Z.leb_le. lia. Qed.

(** ** The [$group] stage *)

Lemma group_snoc (docs : list IMessage) (m : IMessage) :
  Controllers.group (docs ++ [m])
  = Controllers.accumulate (Controllers.group docs) m.
Proof. unfold Controllers.group. rewrite fold_left_app. reflexivity. Qed.

Lemma messages_of_snoc c docs m :
  Conversation.messages_of c (docs ++ [m])
  = Conversation.messages_of c docs
    ++ (if String.eqb (conversationId m) c then [m] else []).
Proof.
  unfold Conversation.messages_of. rewrite filter_app. simpl.
  unfold Controllers.in_conversation.
  destruct (String.eqb (conversationId m) c); reflexivity.
Qed.

Lemma messages_of_nil_iff c docs :
  Conversation.messages_of c docs = [] <-> ~ In c (map conversationId docs).
Proof.
  unfold Conversation.messages_of, Controllers.in_conversation.
  induction docs as [|x r IH]; simpl.
  - tauto.
  - destruct (String.eqb_spec (conversationId x) c) as [E|E].
    + split; [discriminate | intros H; exfalso; apply H; left; exact E].
    + rewrite IH. tauto.
Qed.

Lemma accumulated_new_group m :
  Conversation.accumulated [m] (Controllers.new_group m).
Proof. exists [], m. repeat split. Qed.

Lemma accumulated_add_to_group ms g m :
  Conversation.accumulated ms g ->
  Conversation.accumulated (ms ++ [m]) (Controllers.add_to_group g m).
Proof.
  intros (ms' & m0 & Hms & Hlast & Hcount & Hcust & Hpart).
  exists ms, m. simpl.
  split; [reflexivity|]. split; [reflexivity|].
  split; [rewrite Hcount, length_app; reflexivity|].
  split; [rewrite Hcust, map_app; reflexivity|].
  rewrite Hpart. unfold Conversation.names. rewrite fold_left_app. reflexivity.
Qed.

(** One more document: the identifiers of the groups and what each group
has accumulated. *)
Lemma accumulate_spec (docs : list IMessage) (m : IMessage)
    (gs : list Controllers.group_t) :
  NoDup (map Controllers._id gs) ->
  Forall (fun g => Conversation.accumulated
                     (Conversation.messages_of (Controllers._id g) docs) g) gs ->
  (~ In (conversationId m) (map Controllers._id gs) ->
   Conversation.messages_of (conversationId m) docs = []) ->
  map Controllers._id (Controllers.accumulate gs m)
    = (if in_dec string_dec (conversationId m) (map Controllers._id gs)
       then map Controllers._id gs
       else map Controllers._id gs ++ [conversationId m])
  /\ Forall (fun g => Conversation.accumulated
                        (Conversation.messages_of (Controllers._id g)
                           (docs ++ [m])) g)
       (Controllers.accumulate gs m).
Proof.
  induction gs as [|g r IH]; intros Hnd Hall Hnew.
  - simpl. split; [reflexivity|].
    constructor; [|constructor].
    simpl. rewrite messages_of_snoc, String.eqb_refl.
    rewrite (Hnew (fun H => H)). apply accumulated_new_group.
  - simpl in Hnd. inversion Hnd as [|? ? Hg Hr]; subst.
    inversion Hall as [|? ? Hag Har]; subst.
    simpl.
    destruct (String.eqb_spec (Controllers._id g) (conversationId m)) as [E|E].
    + split.
      * simpl. destruct (string_dec (Controllers._id g) (conversationId m));
          [reflexivity|contradiction].
      * constructor.
        -- simpl. rewrite messages_of_snoc, <- E, String.eqb_refl.
           apply accumulated_add_to_group, Hag.
        -- rewrite Forall_forall in Har |- *. intros g' Hg'.
           rewrite messages_of_snoc.
           destruct (String.eqb_spec (conversationId m) (Controllers._id g'))
             as [E'|E'].
           ++ exfalso. apply Hg. rewrite E, E'. apply in_map, Hg'.
           ++ rewrite app_nil_r. apply Har, Hg'.
    + destruct IH as [IHid IHall]; [exact Hr|exact Har| |].
      { intros Hn. apply Hnew. simpl. intros [F|F]; [contradiction|auto]. }
      split.
      * simpl. rewrite IHid.
        destruct (string_dec (Controllers._id g) (conversationId m));
          [contradiction|].
        destruct (in_dec string_dec (conversationId m) (map Controllers._id r));
          reflexivity.
      * constructor; [|exact IHall].
        rewrite messages_of_snoc.
        destruct (String.eqb_spec (conversationId m) (Controllers._id g))
          as [E'|E']; [congruence|].
        rewrite app_nil_r. exact Hag.
Qed.

(** The groups of a list of documents: one per conversation, each holding
what the documents of its conversation accumulate, in their order. *)
Lemma group_spec (docs : list IMessage) :
  NoDup (map Controllers._id (Controllers.group docs))
  /\ (forall c, In c (map Controllers._id (Controllers.group docs))
                <-> In c (map conversationId docs))
  /\ Forall (fun g => Conversation.accumulated
                        (Conversation.messages_of (Controllers._id g) docs) g)
       (Controllers.group docs).
Proof.
  induction docs as [|m docs IH] using rev_ind.
  - simpl. split; [constructor|]. split; [tauto|constructor].
  - destruct IH as (Hnd & Hin & Hall).
    rewrite group_snoc.
    destruct (accumulate_spec docs m (Controllers.group docs) Hnd Hall)
      as [Hid Hacc].
    { intros Hn. apply messages_of_nil_iff. rewrite <- Hin. exact Hn. }
    split; [|split; [|exact Hacc]].
    + rewrite Hid. destruct (in_dec _ _ _) as [Hi|Hi]; [exact Hnd|].
      apply NoDup_app; [exact Hnd | repeat constructor; simpl; tauto |].
      intros x Hx [<-|[]]. contradiction.
    + intros c. rewrite Hid, map_app, in_app_iff. simpl.
      destruct (in_dec _ _ _) as [Hi|Hi].
      * rewrite (Hin c). split; [tauto|].
        intros [H|[<-|[]]]; [exact H|]. apply Hin, Hi.
      * rewrite in_app_iff, (Hin c). simpl. tauto.
Qed.

(** ** [$addToSet] *)

Lemma addToSet_In s l x :
  In x (Controllers.addToSet s l) <-> In x l \/ x = s.
Proof.
  unfold Controllers.addToSet.
  destruct (existsb (String.eqb s) l) eqn:E.
  - split; [tauto|]. intros [H|H]; [exact H|].
    apply existsb_exists in E. destruct E as (y & Hy & Hs).
    apply String.eqb_eq in Hs. subst. exact Hy.
  - rewrite in_app_iff. simpl. split; [intros [H|[H|[]]]; auto | intros [H|H]; auto].
Qed.

Lemma addToSet_NoDup s l : NoDup l -> NoDup (Controllers.addToSet s l).
Proof.
  intros Hnd. unfold Controllers.addToSet.
  destruct (existsb (String.eqb s) l) eqn:E; [exact Hnd|].
  apply NoDup_app; [exact Hnd | repeat constructor; simpl; tauto |].
  intros x Hx [Hs|[]]. subst x.
  assert (existsb (String.eqb s) l = true); [|congruence].
  apply existsb_exists. exists s. split; [exact Hx|apply String.eqb_refl].
Qed.

Lemma fold_addToSet {A : Type} (f : A -> string) (xs : list A) (acc : list string) :
  NoDup acc ->
  NoDup (fold_left (fun l x => Controllers.addToSet (f x) l) xs acc)
  /\ (forall c,
        In c (fold_left (fun l x => Controllers.addToSet (f x) l) xs acc)
        <-> In c acc \/ In c (map f xs)).
Proof.
  revert acc. induction xs as [|x r IH]; intros acc Hnd; simpl.
  - split; [exact Hnd|]. tauto.
  - destruct (IH (Controllers.addToSet (f x) acc) (addToSet_NoDup _ _ Hnd))
      as [H1 H2].
    split; [exact H1|].
    intros c. rewrite H2, addToSet_In. split.
    + intros [[H|H]|H]; auto.
    + intros [H|[H|H]]; auto.
Qed.

(** ** The [$project] stage *)

Lemma projected_userName_accumulated ms g :
  Controllers.customerMessages g = map Controllers.customerMessage ms ->
  Controllers.projected_userName g
  = option_map userName (find Conversation.is_customer ms).
Proof.
  unfold Controllers.projected_userName. intros ->.
  induction ms as [|m r IH]; simpl; [reflexivity|].
  unfold Controllers.customerMessage, Conversation.is_customer in *.
  destruct (negb (String.eqb (userName m) "Business")); simpl.
  - reflexivity.
  - exact IH.
Qed.

(** ** [getConversations] *)

Lemma StronglySorted_last {A : Type} (R : A -> A -> Prop) (l : list A) (x : A) :
  StronglySorted R (l ++ [x]) -> forall y, In y l -> R y x.
Proof.
  induction l as [|z r IH]; simpl; intros Hs y Hy; [contradiction|].
  inversion Hs as [|? ? Hr Hz]; subst.
  destruct Hy as [<-|Hy].
  - rewrite Forall_forall in Hz. apply Hz, in_or_app. right. left. reflexivity.
  - apply IH; assumption.
Qed.

Lemma Permutation_filter {A : Type} (p : A -> bool) (l l' : list A) :
  Permutation l l' -> Permutation (filter p l) (filter p l').
Proof.
  induction 1 as [|x l l' _ IH|x y l|l l' l'' _ IH1 _ IH2]; simpl.
  - constructor.
  - destruct (p x); [apply perm_skip|]; exact IH.
  - destruct (p x), (p y); try apply Permutation_refl. apply perm_swap.
  - exact (perm_trans IH1 IH2).
Qed.

(** The messages of a conversation in chronological order: what the
[$group] stage receives for it, and what [getMessagesByConversation]
answers. *)
Lemma messages_of_sorted c docs :
  Conversation.messages_of c (Mongo.sort_by Mongo.by_timestamp_asc docs)
  = Mongo.sort_by Mongo.by_timestamp_asc (Conversation.messages_of c docs).
Proof.
  unfold Conversation.messages_of.
  apply filter_sort_by.
  - exact by_timestamp_asc_total.
  - exact by_timestamp_asc_trans.
Qed.

(** Every summary is the projection of the accumulators of its
conversation's messages, taken in chronological order. *)
Lemma aggregate_In (docs : list IMessage) (s : Controllers.ConversationSummary) :
  In s (Controllers.aggregate docs) ->
  exists g,
    s = Controllers.project g
    /\ Conversation.accumulated
         (Mongo.sort_by Mongo.by_timestamp_asc
            (Conversation.messages_of (Controllers._id g) docs)) g.
Proof.
  unfold Controllers.aggregate. intros Hs.
  apply (Permutation_in _ (sort_by_Permutation _ _)) in Hs.
  apply in_map_iff in Hs. destruct Hs as (g & <- & Hg).
  exists g. split; [reflexivity|].
  destruct (group_spec (Mongo.sort_by Mongo.by_timestamp_asc docs))
    as (_ & _ & Hall).
  rewrite Forall_forall in Hall. specialize (Hall g Hg).
  rewrite messages_of_sorted in Hall. exact Hall.
Qed.

(** X1. The summaries come latest conversation first. *)
Theorem aggregate_sorted_descending (docs : list IMessage) :
  StronglySorted
    (fun a b => (Controllers.lastTimestamp b <= Controllers.lastTimestamp a)%Z)
    (Controllers.aggregate docs).
Proof.
  unfold Controllers.aggregate.
  pose proof (sort_by_StronglySorted Controllers.by_lastTimestamp_desc
                by_lastTimestamp_desc_total by_lastTimestamp_desc_trans
                (map Controllers.project
                   (Controllers.group
                      (Mongo.sort_by Mongo.by_timestamp_asc docs)))) as H.
  eapply StronglySorted_ind with (P := fun l => StronglySorted _ l);
    [constructor | | exact H].
  intros a l _ IH Ha. constructor; [exact IH|].
  eapply Forall_impl; [|exact Ha].
  intros b Hb. unfold Controllers.by_lastTimestamp_desc in Hb.
  apply Z.leb_le. exact Hb.
Qed.

Lemma aggregate_one_per_conversation_core (docs : list IMessage) :
  NoDup (map Controllers.conversationId (Controllers.aggregate docs))
  /\ (forall c,
        In c (map Controllers.conversationId (Controllers.aggregate docs))
        <-> In c (map conversationId docs)).
Proof.
  unfold Controllers.aggregate.
  set (sorted := Mongo.sort_by Mongo.by_timestamp_asc docs).
  destruct (group_spec sorted) as (Hnd & Hin & _).
  assert (Hperm : Permutation
                    (map Controllers.conversationId
                       (Mongo.sort_by Controllers.by_lastTimestamp_desc
                          (map Controllers.project (Controllers.group sorted))))
                    (map Controllers._id (Controllers.group sorted))).
  { eapply perm_trans.
    - apply Permutation_map, sort_by_Permutation.
    - rewrite map_map. apply Permutation_refl. }
  split.
  - eapply Permutation_NoDup; [apply Permutation_sym, Hperm|exact Hnd].
  - intros c. split.
    + intros H. apply (Permutation_in _ Hperm) in H. apply Hin in H.
      eapply Permutation_in; [|exact H].
      apply Permutation_map, sort_by_Permutation.
    + intros H. apply (Permutation_in _ (Permutation_sym Hperm)). apply Hin.
      eapply Permutation_in; [|exact H].
      apply Permutation_map, Permutation_sym, sort_by_Permutation.
Qed.

(** X2. There is exactly one summary per conversation that has a stored
message. *)
Theorem aggregate_one_per_conversation (docs : list IMessage) :
  NoDup (map Controllers.conversationId (Controllers.aggregate docs))
  /\ (forall c,
        In c (map Controllers.conversationId (Controllers.aggregate docs))
        <-> In c (map conversationId docs)).
Proof. exact (aggregate_one_per_conversation_core docs). Qed.

Lemma messages_of_In c docs m :
  In m (Conversation.messages_of c docs) <-> In m docs /\ conversationId m = c.
Proof.
  unfold Conversation.messages_of, Controllers.in_conversation.
  rewrite filter_In, String.eqb_eq. tauto.
Qed.

Lemma aggregate_messageCount_core (docs : list IMessage)
    (s : Controllers.ConversationSummary) :
  In s (Controllers.aggregate docs) ->
  Controllers.messageCount s
  = List.length (Conversation.messages_of (Controllers.conversationId s) docs).
Proof.
  intros Hs. destruct (aggregate_In docs s Hs) as (g & -> & Hacc).
  destruct Hacc as (ms' & m & _ & _ & Hcount & _).
  simpl. rewrite Hcount.
  apply Permutation_length, sort_by_Permutation.
Qed.

(** X3. The count of a summary is the number of stored messages of its
conversation. *)
Theorem aggregate_messageCount (docs : list IMessage)
    (s : Controllers.ConversationSummary) :
  In s (Controllers.aggregate docs) ->
  Controllers.messageCount s
  = List.length (Conversation.messages_of (Controllers.conversationId s) docs).
Proof. exact (aggregate_messageCount_core docs s). Qed.

Lemma aggregate_messageCount_witness :
  Controllers.messageCount
    {| Controllers.conversationId := "conv_5551234";
       Controllers.userName := Some "Unknown User"%string;
       Controllers.lastMessageBody := "hi";
       Controllers.lastTimestamp := 1000000;
       Controllers.messageCount := 1;
       Controllers.participants := ["Unknown User"%string] |}
  = List.length
      (Conversation.messages_of "conv_5551234"
         [Scenario.outbound; Scenario.stored_m1 read]).
Proof.
  apply (aggregate_messageCount [Scenario.outbound; Scenario.stored_m1 read]).
  vm_compute. left. reflexivity.
Defined.

Lemma aggregate_latest_message_core (docs : list IMessage)
    (s : Controllers.ConversationSummary) :
  In s (Controllers.aggregate docs) ->
  exists m,
    In m docs
    /\ conversationId m = Controllers.conversationId s
    /\ timestamp m = Controllers.lastTimestamp s
    /\ body m = Controllers.lastMessageBody s
    /\ (forall m', In m' docs ->
                   conversationId m' = Controllers.conversationId s ->
                   (timestamp m' <= Controllers.lastTimestamp s)%Z).
Proof.
  intros Hs. destruct (aggregate_In docs s Hs) as (g & -> & Hacc).
  destruct Hacc as (ms' & m & Hms & Hlast & _).
  simpl. exists m.
  assert (Hperm := sort_by_Permutation Mongo.by_timestamp_asc
                     (Conversation.messages_of (Controllers._id g) docs)).
  assert (Hm : In m (Conversation.messages_of (Controllers._id g) docs)).
  { apply (Permutation_in _ Hperm). rewrite Hms. apply in_or_app.
    right. left. reflexivity. }
  apply messages_of_In in Hm. destruct Hm as [Hin Hconv].
  rewrite Hlast.
  split; [exact Hin|]. split; [exact Hconv|].
  split; [reflexivity|]. split; [reflexivity|].
  intros m' Hin' Hconv'.
  assert (Hm' : In m' (Conversation.messages_of (Controllers._id g) docs))
    by (apply messages_of_In; split; assumption).
  apply (Permutation_in _ (Permutation_sym Hperm)) in Hm'.
  rewrite Hms in Hm'. apply in_app_or in Hm'.
  destruct Hm' as [Hm'|[<-|[]]]; [|lia].
  pose proof (sort_by_StronglySorted Mongo.by_timestamp_asc
                by_timestamp_asc_total by_timestamp_asc_trans
                (Conversation.messages_of (Controllers._id g) docs)) as Hsorted.
  rewrite Hms in Hsorted.
  pose proof (StronglySorted_last _ _ _ Hsorted m' Hm') as Hle.
  unfold Mongo.by_timestamp_asc in Hle. apply Z.leb_le in Hle. exact Hle.
Qed.

(** X4. The last body and timestamp of a summary are those of a stored message
of its conversation, and no message of the conversation is later. *)
Theorem aggregate_latest_message (docs : list IMessage)
    (s : Controllers.ConversationSummary) :
  In s (Controllers.aggregate docs) ->
  exists m,
    In m docs
    /\ conversationId m = Controllers.conversationId s
    /\ timestamp m = Controllers.lastTimestamp s
    /\ body m = Controllers.lastMessageBody s
    /\ (forall m', In m' docs ->
                   conversationId m' = Controllers.conversationId s ->
                   (timestamp m' <= Controllers.lastTimestamp s)%Z).
Proof. exact (aggregate_latest_message_core docs s). Qed.

Lemma aggregate_latest_message_witness :
  exists m,
    In m [Scenario.outbound; Scenario.stored_m1 read]
    /\ conversationId m = "conv_5551234"%string
    /\ timestamp m = 1000000%Z
    /\ body m = "hi"%string
    /\ (forall m', In m' [Scenario.outbound; Scenario.stored_m1 read] ->
                   conversationId m' = "conv_5551234"%string ->
                   (timestamp m' <= 1000000)%Z).
Proof.
  apply (aggregate_latest_message [Scenario.outbound; Scenario.stored_m1 read]
           {| Controllers.conversationId := "conv_5551234";
              Controllers.userName := Some "Unknown User"%string;
              Controllers.lastMessageBody := "hi";
              Controllers.lastTimestamp := 1000000;
              Controllers.messageCount := 1;
              Controllers.participants := ["Unknown User"%string] |}).
  vm_compute. left. reflexivity.
Defined.

(** X5. The name shown for a conversation is the sender name of its first
message, in chronological order, whose sender name is not [Business]; when
every message of the conversation is from [Business] the summary has no
[userName] at all. *)
Theorem aggregate_userName (docs : list IMessage)
    (s : Controllers.ConversationSummary) :
  In s (Controllers.aggregate docs) ->
  Controllers.userName s
  = option_map userName
      (find Conversation.is_customer
         (Mongo.sort_by Mongo.by_timestamp_asc
            (Conversation.messages_of (Controllers.conversationId s) docs))).
Proof.
  intros Hs. destruct (aggregate_In docs s Hs) as (g & -> & Hacc).
  destruct Hacc as (ms' & m & _ & _ & _ & Hcust & _).
  simpl. apply projected_userName_accumulated. exact Hcust.
Qed.

Lemma aggregate_userName_witness :
  Controllers.userName
    {| Controllers.conversationId := "conv_123";
       Controllers.userName := None;
       Controllers.lastMessageBody := "hello";
       Controllers.lastTimestamp := 7;
       Controllers.messageCount := 1;
       Controllers.participants := ["Business"%string] |}
  = option_map userName
      (find Conversation.is_customer
         (Mongo.sort_by Mongo.by_timestamp_asc
            (Conversation.messages_of "conv_123"
               [Scenario.outbound; Scenario.stored_m1 read]))).
Proof.
  apply (aggregate_userName [Scenario.outbound; Scenario.stored_m1 read]).
  vm_compute. right. left. reflexivity.
Defined.

(** X6. The participants of a summary are the sender names of the messages of
its conversation, each listed once. *)
Theorem aggregate_participants (docs : list IMessage)
    (s : Controllers.ConversationSummary) :
  In s (Controllers.aggregate docs) ->
  NoDup (Controllers.participants s)
  /\ (forall n,
        In n (Controllers.participants s)
        <-> exists m, In m docs
                      /\ conversationId m = Controllers.conversationId s
                      /\ userName m = n).
Proof.
  intros Hs. destruct (aggregate_In docs s Hs) as (g & -> & Hacc).
  destruct Hacc as (ms' & m & _ & _ & _ & _ & Hpart).
  simpl. rewrite Hpart. unfold Conversation.names.
  destruct (fold_addToSet userName
              (Mongo.sort_by Mongo.by_timestamp_asc
                 (Conversation.messages_of (Controllers._id g) docs))
              [] (NoDup_nil _)) as [Hnd Hin].
  split; [exact Hnd|].
  intros n. rewrite Hin. simpl. rewrite in_map_iff. split.
  - intros [[]|(x & Hx & Hxin)].
    apply (Permutation_in _ (sort_by_Permutation _ _)) in Hxin.
    apply messages_of_In in Hxin. exists x. tauto.
  - intros (x & Hx & Hc & Hn). right. exists x. split; [exact Hn|].
    apply (Permutation_in _ (Permutation_sym (sort_by_Permutation _ _))).
    apply messages_of_In. tauto.
Qed.

Lemma aggregate_participants_witness :
  NoDup ["Unknown User"%string]
  /\ (forall n,
        In n ["Unknown User"%string]
        <-> exists m, In m [Scenario.outbound; Scenario.stored_m1 read]
                      /\ conversationId m = "conv_5551234"%string
                      /\ userName m = n).
Proof.
  apply (aggregate_participants [Scenario.outbound; Scenario.stored_m1 read]
           {| Controllers.conversationId := "conv_5551234";
              Controllers.userName := Some "Unknown User"%string;
              Controllers.lastMessageBody := "hi";
              Controllers.lastTimestamp := 1000000;
              Controllers.messageCount := 1;
              Controllers.participants := ["Unknown User"%string] |}).
  vm_compute. left. reflexivity.
Defined.

(** X7. The order in which the messages were stored does not matter for the
conversations listed, their counts and their last timestamps. *)
Theorem aggregate_insertion_order (docs docs' : list IMessage)
    (s : Controllers.ConversationSummary) :
  Permutation docs docs' ->
  In s (Controllers.aggregate docs) ->
  exists s',
    In s' (Controllers.aggregate docs')
    /\ Controllers.conversationId s' = Controllers.conversationId s
    /\ Controllers.messageCount s' = Controllers.messageCount s
    /\ Controllers.lastTimestamp s' = Controllers.lastTimestamp s.
Proof.
  intros Hperm Hs.
  assert (Hc : In (Controllers.conversationId s)
                 (map Controllers.conversationId (Controllers.aggregate docs'))).
  { apply aggregate_one_per_conversation_core.
    apply (Permutation_in _ (Permutation_map conversationId Hperm)).
    apply aggregate_one_per_conversation_core. apply in_map, Hs. }
  apply in_map_iff in Hc. destruct Hc as (s' & Hid & Hs').
  exists s'. split; [exact Hs'|]. split; [exact Hid|]. split.
  - rewrite (aggregate_messageCount_core docs' s' Hs'),
      (aggregate_messageCount_core docs s Hs), Hid.
    apply Permutation_length, Permutation_filter, Permutation_sym, Hperm.
  - destruct (aggregate_latest_message_core docs s Hs)
      as (m & Hm & Hmc & Hmt & _ & Hmax).
    destruct (aggregate_latest_message_core docs' s' Hs')
      as (m' & Hm' & Hmc' & Hmt' & _ & Hmax').
    assert (H1 : (timestamp m <= Controllers.lastTimestamp s')%Z).
    { apply Hmax'; [apply (Permutation_in _ Hperm), Hm | congruence]. }
    assert (H2 : (timestamp m' <= Controllers.lastTimestamp s)%Z).
    { apply Hmax; [apply (Permutation_in _ (Permutation_sym Hperm)), Hm'
                  | congruence]. }
    lia.
Qed.

Lemma aggregate_insertion_order_witness :
  exists s',
    In s' (Controllers.aggregate [Scenario.stored_m1 read; Scenario.outbound])
    /\ Controllers.conversationId s' = "conv_123"%string
    /\ Controllers.messageCount s' = 1
    /\ Controllers.lastTimestamp s' = 7%Z.
Proof.
  apply (aggregate_insertion_order
           [Scenario.outbound; Scenario.stored_m1 read]
           [Scenario.stored_m1 read; Scenario.outbound]
           {| Controllers.conversationId := "conv_123";
              Controllers.userName := None;
              Controllers.lastMessageBody := "hello";
              Controllers.lastTimestamp := 7;
              Controllers.messageCount := 1;
              Controllers.participants := ["Business"%string] |}).
  - apply perm_swap.
  - vm_compute. right. left. reflexivity.
Defined.

(** ** [getMessagesByConversation] and [getConversationStats] *)

Lemma getMessagesByConversation_answer_core (c : string) (w : World) :
  (c = ""%string ->
   Controllers.getMessagesByConversation c w
   = (Returned {| Controllers.replyCode := 400;
                  Controllers.replyJson :=
                    Controllers.json_fail "Conversation ID is required" |}, w))
  /\ (c <> ""%string ->
      exists l,
        Controllers.getMessagesByConversation c w
        = (Returned {| Controllers.replyCode := 200;
                       Controllers.replyJson := Controllers.json_ok l |}, w)
        /\ StronglySorted (fun a b => (timestamp a <= timestamp b)%Z) l
        /\ Permutation l (Conversation.messages_of c (db w))
        /\ (forall m, In m l <-> In m (db w) /\ conversationId m = c)).
Proof.
  split.
  - intros ->. reflexivity.
  - intros Hc. apply falsy_false_iff in Hc.
    unfold Controllers.getMessagesByConversation. rewrite Hc.
    eexists. split; [reflexivity|].
    fold (Conversation.messages_of c (db w)).
    pose proof (sort_by_Permutation Mongo.by_timestamp_asc
                  (Conversation.messages_of c (db w))) as Hperm.
    split; [|split; [exact Hperm|]].
    + pose proof (sort_by_StronglySorted Mongo.by_timestamp_asc
                    by_timestamp_asc_total by_timestamp_asc_trans
                    (Conversation.messages_of c (db w))) as H.
      eapply StronglySorted_ind with (P := fun l => StronglySorted _ l);
        [constructor | | exact H].
      intros a l _ IH Ha. constructor; [exact IH|].
      eapply Forall_impl; [|exact Ha].
      intros b Hb. apply Z.leb_le. exact Hb.
    + intros m. rewrite <- messages_of_In. split.
      * apply Permutation_in, Hperm.
      * apply Permutation_in, Permutation_sym, Hperm.
Qed.

(** X8. For a conversation identifier the endpoint answers 200 with exactly the
stored messages of that conversation, oldest first, and leaves the world as
it is; without an identifier it answers 400. *)
Theorem getMessagesByConversation_answer (c : string) (w : World) :
  (c = ""%string ->
   Controllers.getMessagesByConversation c w
   = (Returned {| Controllers.replyCode := 400;
                  Controllers.replyJson :=
                    Controllers.json_fail "Conversation ID is required" |}, w))
  /\ (c <> ""%string ->
      exists l,
        Controllers.getMessagesByConversation c w
        = (Returned {| Controllers.replyCode := 200;
                       Controllers.replyJson := Controllers.json_ok l |}, w)
        /\ StronglySorted (fun a b => (timestamp a <= timestamp b)%Z) l
        /\ Permutation l (Conversation.messages_of c (db w))
        /\ (forall m, In m l <-> In m (db w) /\ conversationId m = c)).
Proof. exact (getMessagesByConversation_answer_core c w). Qed.

Lemma getMessagesByConversation_answer_witness :
  exists l,
    Controllers.getMessagesByConversation "conv_123"
      (Scenario.store [Scenario.stored_m1 read; Scenario.outbound])
    = (Returned {| Controllers.replyCode := 200;
                   Controllers.replyJson := Controllers.json_ok l |},
       Scenario.store [Scenario.stored_m1 read; Scenario.outbound])
    /\ StronglySorted (fun a b => (timestamp a <= timestamp b)%Z) l
    /\ Permutation l
         (Conversation.messages_of "conv_123"
            (db (Scenario.store [Scenario.stored_m1 read; Scenario.outbound])))
    /\ (forall m,
          In m l
          <-> In m (db (Scenario.store
                          [Scenario.stored_m1 read; Scenario.outbound]))
              /\ conversationId m = "conv_123"%string).
Proof.
  apply (getMessagesByConversation_answer "conv_123"
           (Scenario.store [Scenario.stored_m1 read; Scenario.outbound])).
  discriminate.
Defined.

Lemma stats_fold (docs : list IMessage) (g : Controllers.stats_group_t) :
  let g' := fold_left Controllers.stats_step docs g in
  Controllers.s_totalMessages g'
    = Controllers.s_totalMessages g + List.length docs
  /\ Controllers.s_statusBreakdown g'
     = Controllers.s_statusBreakdown g ++ map status docs
  /\ Controllers.s_totalConversations g'
     = fold_left (fun l m => Controllers.addToSet (conversationId m) l) docs
         (Controllers.s_totalConversations g).
Proof.
  revert g. induction docs as [|m r IH]; intros g; simpl.
  - rewrite Nat.add_0_r, app_nil_r. repeat split.
  - destruct (IH (Controllers.stats_step g m)) as (H1 & H2 & H3).
    rewrite H1, H2, H3. simpl. rewrite <- app_assoc. simpl.
    repeat split. lia.
Qed.

(** X9. The statistics count every stored message, list the status of each in
storage order, and count as many conversations as [getConversations]
lists; on an empty collection all three are empty. The world is left as it
is. *)
Theorem getConversationStats_totals (w : World) :
  exists st,
    Controllers.getConversationStats w
    = (Returned {| Controllers.replyCode := 200;
                   Controllers.replyJson := Controllers.json_ok st |}, w)
    /\ Controllers.totalMessages st = List.length (db w)
    /\ Controllers.statusBreakdown st = map status (db w)
    /\ Controllers.totalConversations st
       = List.length (Controllers.aggregate (db w)).
Proof.
  unfold Controllers.getConversationStats, bind, read_db, ret.
  eexists. split; [reflexivity|].
  destruct (db w) as [|m r] eqn:Hdb; [repeat split|].
  unfold Controllers.stats_pipeline.
  destruct (stats_fold (m :: r)
              {| Controllers.s_totalMessages := 0;
                 Controllers.s_totalConversations := [];
                 Controllers.s_statusBreakdown := [] |}) as (H1 & H2 & H3).
  cbv zeta in H1, H2, H3.
  cbn [Controllers.totalMessages Controllers.statusBreakdown
       Controllers.totalConversations].
  rewrite H1, H2, H3.
  split; [reflexivity|]. split; [reflexivity|].
  cbn [Controllers.s_totalConversations].
  destruct (fold_addToSet conversationId (m :: r) [] (NoDup_nil _))
    as [Hnd Hin].
  destruct (aggregate_one_per_conversation_core (m :: r)) as [Hnd' Hin'].
  rewrite <- (length_map Controllers.conversationId (Controllers.aggregate (m :: r))).
  apply Permutation_length, NoDup_Permutation; [exact Hnd|exact Hnd'|].
  intros c. rewrite Hin, Hin'. simpl. tauto.
Qed.

(** ** The webhook pipeline as a whole *)

Lemma processWebhookPayload_value now p w v :
  Webhook.value_of p = Some v ->
  ProcessPayload.processWebhookPayload now p w
  = try_rethrow ErrorProcessingWebhook
      (match WhatsAppValue.messages v, WhatsAppValue.statuses v with
       | Some _, _ => ProcessPayload.processMessage now v
       | None, Some _ => ProcessPayload.processStatusUpdate now v
       | None, None => log UnknownPayloadType
       end) w.
Proof.
  unfold Webhook.value_of, ProcessPayload.processWebhookPayload.
  destruct (ProcessPayload.first _) as [e|]; [|discriminate].
  destruct (ProcessPayload.first (WebhookPayload.changes e)) as [ch|];
    [|discriminate].
  simpl. intros [= <-]. reflexivity.
Qed.

Lemma processWebhookPayload_no_value now p w :
  Webhook.value_of p = None ->
  exists line,
    ProcessPayload.processWebhookPayload now p w
    = (Returned tt, {| db := db w; emitted := emitted w;
                       console := console w ++ [line] |}).
Proof.
  unfold Webhook.value_of, ProcessPayload.processWebhookPayload, try_rethrow.
  destruct (ProcessPayload.first _) as [e|].
  - destruct (ProcessPayload.first (WebhookPayload.changes e)) as [ch|];
      [discriminate|].
    intros _. eexists. reflexivity.
  - intros _. eexists. reflexivity.
Qed.

(** The outcomes of [processMessage]: the store is untouched, or grows by
the new document; it throws exactly when the schema refuses the document of
a message with a new, non-empty identifier. *)
Lemma processMessage_cases now value w :
  let res := ProcessPayload.processMessage now value w in
  (fst res = Returned tt
   /\ (db (snd res) = db w
       \/ exists message t,
            ProcessPayload.first (WhatsAppValue.messages value) = Some message
            /\ find (Mongo.has_id (WhatsAppMessage.id message)) (db w) = None
            /\ db (snd res)
               = db w ++ [Mongo.stamped now
                            (ProcessPayload.newMessage
                               (WhatsAppValue.metadata value)
                               (ProcessPayload.first
                                  (WhatsAppValue.contacts value))
                               message t)]))
  \/ (fst res = Threw ValidationError
      /\ db (snd res) = db w
      /\ console (snd res)
         = console w ++ [ErrorProcessingMessage ValidationError]
      /\ exists message,
           ProcessPayload.first (WhatsAppValue.messages value) = Some message
           /\ WhatsAppMessage.id message <> ""%string
           /\ find (Mongo.has_id (WhatsAppMessage.id message)) (db w) = None
           /\ Webhook.refused value message = true).
Proof.
  intros res. subst res.
  unfold ProcessPayload.processMessage, try_rethrow.
  destruct (ProcessPayload.first (WhatsAppValue.messages value))
    as [message|] eqn:Hfirst; [|left; simpl; auto].
  destruct (Js.falsy (WhatsAppMessage.id message)) eqn:Hid;
    [left; simpl; auto|].
  unfold Mongo.findOne, bind, read_db, ret. simpl.
  destruct (find (Mongo.has_id (WhatsAppMessage.id message)) (db w)) eqn:Hfind;
    [left; simpl; auto|].
  assert (Hid' := proj1 (falsy_false_iff _) Hid).
  destruct (Js.dateOfSeconds
              (Js.parseInt (WhatsAppMessage.timestamp message)))
    as [t|] eqn:Hdate.
  - unfold Mongo.save.
    destruct (required_ok _) eqn:Hreq.
    + left. simpl. split; [reflexivity|]. right.
      exists message, t. auto.
    + right. simpl. split; [reflexivity|]. split; [reflexivity|].
      split; [reflexivity|].
      exists message. split; [reflexivity|]. split; [exact Hid'|].
      split; [exact Hfind|].
      unfold Webhook.refused. rewrite Hdate.
      revert Hreq. unfold required_ok, ProcessPayload.newMessage.
      cbn [conversationId messageId from to type].
      rewrite Hid.
      assert (Hty : Js.falsy (Js.or_else (WhatsAppMessage.type message) "text")
                    = false)
        by (destruct (WhatsAppMessage.type message); reflexivity).
      rewrite Hty. cbn [negb andb Js.falsy append].
      destruct (Js.falsy (WhatsAppMessage.from message)); [reflexivity|].
      cbn [negb andb orb].
      unfold ProcessPayload.userNumber.
      destruct (String.eqb (WhatsAppMessage.from message)
                  (ProcessPayload.businessNumber (WhatsAppValue.metadata value)))
        eqn:E; cbn [negb andb].
      * destruct (Js.falsy (Js.opt_or_else (WhatsAppMessage.to message) ""));
          [reflexivity|discriminate].
      * pose proof (businessNumber_nonempty (WhatsAppValue.metadata value)) as Hbn.
        apply falsy_false_iff in Hbn. rewrite Hbn. discriminate.
  - right. simpl. split; [reflexivity|]. split; [reflexivity|].
    split; [reflexivity|].
    exists message. split; [reflexivity|]. split; [exact Hid'|].
    split; [exact Hfind|].
    unfold Webhook.refused. rewrite Hdate. reflexivity.
Qed.

(** The collection after [processMessage], as a function of the collection
before. *)
Lemma processMessage_db now value w :
  db (snd (ProcessPayload.processMessage now value w))
  = match ProcessPayload.first (WhatsAppValue.messages value) with
    | None => db w
    | Some message =>
        if Js.falsy (WhatsAppMessage.id message) then db w
        else
          match find (Mongo.has_id (WhatsAppMessage.id message)) (db w) with
          | Some _ => db w
          | None =>
              if Webhook.refused value message then db w
              else
                match Js.dateOfSeconds
                        (Js.parseInt (WhatsAppMessage.timestamp message)) with
                | None => db w
                | Some t =>
                    db w ++ [Mongo.stamped now
                               (ProcessPayload.newMessage
                                  (WhatsAppValue.metadata value)
                                  (ProcessPayload.first
                                     (WhatsAppValue.contacts value))
                                  message t)]
                end
          end
    end.
Proof.
  pose proof (processMessage_cases now value w) as H. cbv zeta in H.
  destruct (ProcessPayload.first (WhatsAppValue.messages value))
    as [message|] eqn:Hfirst.
  2:{ destruct H as [[_ [H|(m & t & F & _)]]|(_ & _ & _ & m & F & _)];
        [exact H|discriminate|discriminate]. }
  destruct (Js.falsy (WhatsAppMessage.id message)) eqn:Hid.
  { unfold ProcessPayload.processMessage, try_rethrow.
    rewrite Hfirst, Hid. reflexivity. }
  apply falsy_false_iff in Hid.
  destruct (find (Mongo.has_id (WhatsAppMessage.id message)) (db w)) eqn:Hfind.
  { rewrite (processMessage_duplicate now w value message Hfirst Hid _ Hfind).
    reflexivity. }
  destruct (Webhook.refused value message) eqn:Href.
  - destruct H as [[_ [H|(m & t & [= <-] & _ & H)]]|(_ & H & _)];
      [exact H| |exact H].
    exfalso.
    assert (Hlen := f_equal (@List.length _) H).
    revert Href. unfold Webhook.refused.
    destruct (Js.dateOfSeconds _) as [t'|] eqn:Hdate.
    + intros Href.
      assert (Hreq : required_ok
                       (ProcessPayload.newMessage (WhatsAppValue.metadata value)
                          (ProcessPayload.first (WhatsAppValue.contacts value))
                          message t') = false).
      { unfold required_ok, ProcessPayload.newMessage.
        cbn [conversationId messageId from to type].
        apply orb_true_iff in Href. destruct Href as [Hf|Hf].
        - rewrite Hf. cbn. rewrite andb_false_r. reflexivity.
        - apply andb_true_iff in Hf. destruct Hf as [He Ht].
          unfold ProcessPayload.userNumber. rewrite He. cbn [negb].
          rewrite Ht. cbn. rewrite !andb_false_r. reflexivity. }
      revert H. unfold ProcessPayload.processMessage, try_rethrow.
      apply falsy_false_iff in Hid. rewrite Hfirst, Hid.
      unfold Mongo.findOne, bind, read_db, ret. simpl.
      rewrite Hfind, Hdate. unfold Mongo.save. rewrite Hreq. simpl.
      intros H. apply (f_equal (@List.length _)) in H.
      rewrite length_app in H. simpl in H. lia.
    + intros _. revert H. unfold ProcessPayload.processMessage, try_rethrow.
      apply falsy_false_iff in Hid. rewrite Hfirst, Hid.
      unfold Mongo.findOne, bind, read_db, ret. simpl.
      rewrite Hfind, Hdate. simpl.
      intros H. apply (f_equal (@List.length _)) in H.
      rewrite length_app in H. simpl in H. lia.
  - destruct H as [[_ H]|(_ & _ & _ & m & [= <-] & _ & _ & F)];
      [|congruence].
    unfold Webhook.refused in Href.
    destruct (Js.dateOfSeconds _) as [t|] eqn:Hdate; [|discriminate].
    apply orb_false_iff in Href. destruct Href as [Hfrom Hto].
    rewrite (processMessage_fresh now w value message Hfirst Hid t Hfind Hdate).
    + reflexivity.
    + apply falsy_false_iff. exact Hfrom.
    + intros He. apply String.eqb_eq in He. rewrite He in Hto. simpl in Hto.
      destruct (WhatsAppMessage.to message) as [u|]; [|discriminate].
      exists u. split; [reflexivity|].
      simpl in Hto. destruct u; [discriminate|discriminate].
Qed.

(** A message the schema refuses: the handler throws and stores nothing. *)
Lemma processMessage_refused now value w message :
  ProcessPayload.first (WhatsAppValue.messages value) = Some message ->
  WhatsAppMessage.id message <> ""%string ->
  find (Mongo.has_id (WhatsAppMessage.id message)) (db w) = None ->
  Webhook.refused value message = true ->
  ProcessPayload.processMessage now value w
  = (Threw ValidationError,
     {| db := db w; emitted := emitted w;
        console := console w ++ [ErrorProcessingMessage ValidationError] |}).
Proof.
  intros Hfirst Hid Hfind Href.
  unfold ProcessPayload.processMessage, try_rethrow.
  apply falsy_false_iff in Hid. rewrite Hfirst, Hid.
  unfold Mongo.findOne, bind, read_db, ret. simpl.
  rewrite Hfind.
  unfold Webhook.refused in Href.
  destruct (Js.dateOfSeconds _) as [t|] eqn:Hdate; [|reflexivity].
  assert (Hreq : required_ok
                   (ProcessPayload.newMessage (WhatsAppValue.metadata value)
                      (ProcessPayload.first (WhatsAppValue.contacts value))
                      message t) = false).
  { unfold required_ok, ProcessPayload.newMessage.
    cbn [conversationId messageId from to type].
    apply orb_true_iff in Href. destruct Href as [Hf|Hf].
    - rewrite Hf. cbn. rewrite andb_false_r. reflexivity.
    - apply andb_true_iff in Hf. destruct Hf as [He Ht].
      unfold ProcessPayload.userNumber. rewrite He. cbn [negb].
      rewrite Ht. cbn. rewrite !andb_false_r. reflexivity. }
  unfold Mongo.save. rewrite Hreq. reflexivity.
Qed.

(** X10. The webhook entry point throws exactly when the first change carries a
message list whose first message has a non-empty identifier that is not
stored yet and a document the schema refuses. In that case nothing is
stored or published and the error is logged twice; in every other case
(duplicates, unknown identifiers, invalid statuses, empty payloads) it
returns normally. *)
Theorem webhook_throws_iff_refused (now : Z) (p : WebhookPayload.t) (w : World) :
  let res := ProcessPayload.processWebhookPayload now p w in
  ((exists e, fst res = Threw e)
   <-> exists v message,
         Webhook.value_of p = Some v
         /\ ProcessPayload.first (WhatsAppValue.messages v) = Some message
         /\ WhatsAppMessage.id message <> ""%string
         /\ find (Mongo.has_id (WhatsAppMessage.id message)) (db w) = None
         /\ Webhook.refused v message = true)
  /\ (forall e, fst res = Threw e ->
        e = ValidationError
        /\ db (snd res) = db w
        /\ emitted (snd res) = emitted w
        /\ console (snd res)
           = console w ++ [ErrorProcessingMessage ValidationError;
                           ErrorProcessingWebhook ValidationError]).
Proof.
  intros res. subst res.
  destruct (Webhook.value_of p) as [v|] eqn:Hv.
  2:{ destruct (processWebhookPayload_no_value now p w Hv) as [line Hline].
      rewrite Hline. simpl. split.
      - split; [intros [e He]; discriminate
               |intros (v & m & F & _); discriminate].
      - intros e He. discriminate. }
  rewrite (processWebhookPayload_value now p w v Hv).
  unfold try_rethrow.
  destruct (WhatsAppValue.messages v) as [l|] eqn:Hmsgs.
  - pose proof (processMessage_cases now v w) as Hcases. cbv zeta in Hcases.
    destruct (ProcessPayload.processMessage now v w) as [[a|e] w'] eqn:Hrun;
      simpl in *.
    + split.
      * split; [intros [e He]; discriminate|].
        intros (v' & m & [= <-] & Hfirst & Hid & Hfind & Href).
        rewrite (processMessage_refused now v w m Hfirst Hid Hfind Href) in Hrun.
        discriminate.
      * intros e He. discriminate.
    + destruct Hcases as [[F _]|(He & Hdb & Hcon & m & Hfirst & Hid & Hfind & Href)];
        [discriminate|].
      destruct e. split.
      * split; [intros _|intros _; eexists; reflexivity].
        exists v, m. auto.
      * intros e _. destruct e.
        split; [reflexivity|]. split; [exact Hdb|].
        split.
        -- pose proof (processMessage_emitted now w v) as Hem.
           rewrite Hrun in Hem. exact Hem.
        -- rewrite Hcon, <- app_assoc. reflexivity.
  - assert (Hnothrow : forall c : M unit,
              (forall w0, exists w1, c w0 = (Returned tt, w1)) ->
              ((exists e,
                  fst (match c w with
                       | (Returned a, w') => (Returned a, w')
                       | (Threw e, w') =>
                           (Threw e,
                            {| db := db w'; emitted := emitted w';
                               console := console w'
                                 ++ [ErrorProcessingWebhook e] |})
                       end) = Threw e) -> False)).
    { intros c Hc [e He]. destruct (Hc w) as [w1 H1]. rewrite H1 in He.
      discriminate. }
    assert (Hret : forall w0, exists w1,
              match WhatsAppValue.statuses v with
              | Some _ => ProcessPayload.processStatusUpdate now v
              | None => log UnknownPayloadType
              end w0 = (Returned tt, w1)).
    { intros w0. destruct (WhatsAppValue.statuses v) as [sl|] eqn:Hst;
        [|eexists; reflexivity].
      destruct (ProcessPayload.first (WhatsAppValue.statuses v)) as [su|] eqn:Hfirst.
      - destruct (string_dec (ProcessPayload.statusMessageId su) "") as [Hid|Hid].
        + rewrite (processStatusUpdate_no_id now w0 v su Hfirst Hid).
          eexists; reflexivity.
        + destruct (Status_among ProcessPayload.validStatuses
                      (WhatsAppStatus.status su)) as [s|] eqn:Hs.
          * rewrite (processStatusUpdate_valid now w0 v su s Hfirst Hid Hs).
            eexists; reflexivity.
          * rewrite (processStatusUpdate_invalid now w0 v su Hfirst Hid Hs).
            eexists; reflexivity.
      - unfold ProcessPayload.processStatusUpdate, try_rethrow.
        rewrite Hfirst. eexists; reflexivity. }
    split.
    + split.
      * intros He. exfalso. exact (Hnothrow _ Hret He).
      * intros (v' & m & [= <-] & Hfirst & _).
        rewrite Hmsgs in Hfirst. discriminate.
    + intros e He. exfalso. apply (Hnothrow _ Hret). exists e. exact He.
Qed.

Lemma webhook_throws_iff_refused_witness :
  exists e,
    fst (ProcessPayload.processWebhookPayload 5
           (Scenario.payload (Scenario.messages_value Samples.undated))
           (Scenario.store [Scenario.stored_m1 sent])) = Threw e.
Proof.
  apply (webhook_throws_iff_refused 5
           (Scenario.payload (Scenario.messages_value Samples.undated))
           (Scenario.store [Scenario.stored_m1 sent])).
  exists (Scenario.messages_value Samples.undated), Samples.undated.
  split; [reflexivity|]. split; [reflexivity|].
  split; [discriminate|]. split; reflexivity.
Defined.

(** The collection after [processStatusUpdate], as a function of the
collection before. *)
Lemma processStatusUpdate_db now value w :
  db (snd (ProcessPayload.processStatusUpdate now value w))
  = match ProcessPayload.first (WhatsAppValue.statuses value) with
    | None => db w
    | Some su =>
        if Js.falsy (ProcessPayload.statusMessageId su) then db w
        else
          match Status_among ProcessPayload.validStatuses
                  (WhatsAppStatus.status su) with
          | None => db w
          | Some s =>
              snd (Mongo.update_first
                     (Mongo.has_id (ProcessPayload.statusMessageId su))
                     (set_status s now) (db w))
          end
    end.
Proof.
  destruct (ProcessPayload.first (WhatsAppValue.statuses value)) as [su|] eqn:Hfirst.
  2:{ unfold ProcessPayload.processStatusUpdate, try_rethrow.
      rewrite Hfirst. reflexivity. }
  destruct (Js.falsy (ProcessPayload.statusMessageId su)) eqn:Hid.
  { unfold ProcessPayload.processStatusUpdate, try_rethrow.
    rewrite Hfirst, Hid. reflexivity. }
  apply falsy_false_iff in Hid.
  destruct (Status_among ProcessPayload.validStatuses (WhatsAppStatus.status su))
    as [s|] eqn:Hs.
  - rewrite (processStatusUpdate_valid now w value su s Hfirst Hid Hs).
    reflexivity.
  - rewrite (processStatusUpdate_invalid now w value su Hfirst Hid Hs).
    reflexivity.
Qed.

Lemma same_message_refl m : Webhook.same_message m m.
Proof. unfold Webhook.same_message. repeat split. Qed.

Lemma same_message_set_status s now m :
  Webhook.same_message m (set_status s now m).
Proof. unfold Webhook.same_message. repeat split. Qed.

Lemma Forall2_same_message_refl l : Forall2 Webhook.same_message l l.
Proof. induction l; constructor; [apply same_message_refl|assumption]. Qed.

Lemma update_first_same_message p s now l :
  Forall2 Webhook.same_message l
    (snd (Mongo.update_first p (set_status s now) l)).
Proof.
  induction l as [|m r IH]; simpl; [constructor|].
  destruct (p m); simpl.
  - constructor; [apply same_message_set_status|apply Forall2_same_message_refl].
  - destruct (Mongo.update_first p (set_status s now) r). simpl in *.
    constructor; [apply same_message_refl|exact IH].
Qed.

Lemma webhook_keeps_documents_core (now : Z) (p : WebhookPayload.t) (w : World) :
  let res := ProcessPayload.processWebhookPayload now p w in
  emitted (snd res) = emitted w
  /\ exists kept added,
       db (snd res) = kept ++ added
       /\ Forall2 Webhook.same_message (db w) kept
       /\ (added = []
           \/ exists r, added = [r] /\ status r = sent
                        /\ find (Mongo.has_id (messageId r)) (db w) = None).
Proof.
  intros res. subst res.
  destruct (Webhook.value_of p) as [v|] eqn:Hv.
  2:{ destruct (processWebhookPayload_no_value now p w Hv) as [line ->].
      simpl. split; [reflexivity|].
      exists (db w), []. rewrite app_nil_r.
      split; [reflexivity|]. split; [apply Forall2_same_message_refl|auto]. }
  rewrite (processWebhookPayload_value now p w v Hv).
  assert (Hwrap : forall c : M unit,
            emitted (snd (try_rethrow ErrorProcessingWebhook c w))
              = emitted (snd (c w))
            /\ db (snd (try_rethrow ErrorProcessingWebhook c w))
               = db (snd (c w))).
  { intros c. unfold try_rethrow. destruct (c w) as [[a|e] w']; auto. }
  match goal with
  | |- context [try_rethrow ErrorProcessingWebhook ?c w] =>
      destruct (Hwrap c) as [-> ->]
  end.
  destruct (WhatsAppValue.messages v) as [l|] eqn:Hmsgs.
  - split; [apply processMessage_emitted|].
    pose proof (processMessage_cases now v w) as H. cbv zeta in H.
    destruct H as [[_ [H|(m & t & Hfirst & Hfind & H)]]|(_ & H & _)].
    + exists (db w), []. rewrite app_nil_r.
      split; [exact H|]. split; [apply Forall2_same_message_refl|auto].
    + eexists (db w), [_].
      split; [exact H|]. split; [apply Forall2_same_message_refl|].
      right. eexists. split; [reflexivity|]. split; [reflexivity|exact Hfind].
    + exists (db w), []. rewrite app_nil_r.
      split; [exact H|]. split; [apply Forall2_same_message_refl|auto].
  - destruct (WhatsAppValue.statuses v) as [sl|] eqn:Hst.
    + split; [apply processStatusUpdate_emitted|].
      rewrite processStatusUpdate_db.
      eexists _, []. rewrite app_nil_r. split; [reflexivity|].
      split; [|auto].
      destruct (ProcessPayload.first (WhatsAppValue.statuses v)) as [su|];
        [|apply Forall2_same_message_refl].
      destruct (Js.falsy _); [apply Forall2_same_message_refl|].
      destruct (Status_among _ _); [|apply Forall2_same_message_refl].
      apply update_first_same_message.
    + simpl. split; [reflexivity|].
      exists (db w), []. rewrite app_nil_r.
      split; [reflexivity|]. split; [apply Forall2_same_message_refl|auto].
Qed.

(** X11. Whatever the payload, the webhook entry point publishes nothing, keeps
every stored document (only a status and its update time can change, and
only on the status path) and adds at most one document, which is new by its
identifier and in status sent. *)
Theorem webhook_keeps_documents (now : Z) (p : WebhookPayload.t) (w : World) :
  let res := ProcessPayload.processWebhookPayload now p w in
  emitted (snd res) = emitted w
  /\ exists kept added,
       db (snd res) = kept ++ added
       /\ Forall2 Webhook.same_message (db w) kept
       /\ (added = []
           \/ exists r, added = [r] /\ status r = sent
                        /\ find (Mongo.has_id (messageId r)) (db w) = None).
Proof. exact (webhook_keeps_documents_core now p w). Qed.

(** X12. When the payload carries a message list, a status list carried along
is not applied: every stored document stays exactly as it was. *)
Theorem webhook_messages_shadow_statuses
    (now : Z) (p : WebhookPayload.t) (w : World) (v : WhatsAppValue.t)
    (l : list WhatsAppMessage.t) :
  Webhook.value_of p = Some v ->
  WhatsAppValue.messages v = Some l ->
  exists added,
    db (snd (ProcessPayload.processWebhookPayload now p w)) = db w ++ added.
Proof.
  intros Hv Hmsgs.
  rewrite (processWebhookPayload_value now p w v Hv), Hmsgs.
  assert (Hdb : db (snd (try_rethrow ErrorProcessingWebhook
                           (ProcessPayload.processMessage now v) w))
                = db (snd (ProcessPayload.processMessage now v w))).
  { unfold try_rethrow.
    destruct (ProcessPayload.processMessage now v w) as [[a|e] w']; reflexivity. }
  rewrite Hdb.
  pose proof (processMessage_cases now v w) as H. cbv zeta in H.
  destruct H as [[_ [H|(m & t & _ & _ & H)]]|(_ & H & _)].
  - exists []. rewrite app_nil_r. exact H.
  - eexists. exact H.
  - exists []. rewrite app_nil_r. exact H.
Qed.

Lemma webhook_messages_shadow_statuses_witness :
  exists added,
    db (snd (ProcessPayload.processWebhookPayload 9
               (Scenario.payload (Samples.both Scenario.m2 "m1" "read"))
               (Scenario.store [Scenario.stored_m1 sent])))
    = db (Scenario.store [Scenario.stored_m1 sent]) ++ added.
Proof.
  apply (webhook_messages_shadow_statuses 9
           (Scenario.payload (Samples.both Scenario.m2 "m1" "read"))
           (Scenario.store [Scenario.stored_m1 sent])
           (Samples.both Scenario.m2 "m1" "read") [Scenario.m2]);
    reflexivity.
Defined.

(** ** Replays and sequences of payloads *)

Lemma find_app_none {A : Type} (p : A -> bool) (l : list A) (x : A) :
  find p l = None -> find p (l ++ [x]) = if p x then Some x else None.
Proof.
  induction l as [|y r IH]; simpl; [reflexivity|].
  destruct (p y); [discriminate|]. exact IH.
Qed.

(** X13. A new-message payload processed a second time changes nothing in the
store: the first pass has stored the identifier, or has stored nothing for
a reason that still holds. *)
Theorem message_replay_is_noop (now now' : Z) (value : WhatsAppValue.t)
    (w : World) :
  db (snd (ProcessPayload.processMessage now' value
             (snd (ProcessPayload.processMessage now value w))))
  = db (snd (ProcessPayload.processMessage now value w)).
Proof.
  rewrite (processMessage_db now' value).
  rewrite (processMessage_db now value w).
  destruct (ProcessPayload.first (WhatsAppValue.messages value)) as [m|];
    [|reflexivity].
  destruct (Js.falsy (WhatsAppMessage.id m)); [reflexivity|].
  destruct (find (Mongo.has_id (WhatsAppMessage.id m)) (db w)) eqn:Hfind.
  { rewrite Hfind. reflexivity. }
  destruct (Webhook.refused value m).
  { rewrite Hfind. reflexivity. }
  destruct (Js.dateOfSeconds _) as [t|].
  - rewrite (find_app_none _ _ _ Hfind).
    unfold Mongo.has_id at 1. cbn [messageId Mongo.stamped ProcessPayload.newMessage].
    rewrite String.eqb_refl. reflexivity.
  - rewrite Hfind. reflexivity.
Qed.

Lemma update_first_twice p s now now' l :
  (forall m, p (set_status s now m) = p m) ->
  snd (Mongo.update_first p (set_status s now')
         (snd (Mongo.update_first p (set_status s now) l)))
  = snd (Mongo.update_first p (set_status s now') l).
Proof.
  intros Hp. induction l as [|m r IH]; simpl; [reflexivity|].
  destruct (p m) eqn:Pm; simpl.
  - rewrite Hp, Pm. reflexivity.
  - destruct (Mongo.update_first p (set_status s now) r) as [u r1] eqn:E1.
    simpl in *. rewrite Pm.
    destruct (Mongo.update_first p (set_status s now') r1) as [u2 r2] eqn:E2.
    destruct (Mongo.update_first p (set_status s now') r) as [u3 r3] eqn:E3.
    simpl in *. congruence.
Qed.

(** X14. A status payload processed twice leaves the store as a single pass at
the time of the second one does: the replay can only move the update
time. *)
Theorem status_replay_moves_only_the_update_time (now now' : Z)
    (value : WhatsAppValue.t) (w : World) :
  db (snd (ProcessPayload.processStatusUpdate now' value
             (snd (ProcessPayload.processStatusUpdate now value w))))
  = db (snd (ProcessPayload.processStatusUpdate now' value w)).
Proof.
  rewrite (processStatusUpdate_db now' value (snd _)).
  rewrite (processStatusUpdate_db now value w).
  rewrite (processStatusUpdate_db now' value w).
  destruct (ProcessPayload.first (WhatsAppValue.statuses value)) as [su|];
    [|reflexivity].
  destruct (Js.falsy _); [reflexivity|].
  destruct (Status_among _ _) as [s|]; [|reflexivity].
  apply update_first_twice. intros m. reflexivity.
Qed.

(** X15. A message stored through the webhook is found by its identifier, and a
status payload for that identifier then updates exactly this document. *)
Theorem stored_message_is_reached_by_its_status
    (now now' : Z) (w : World) (value value' : WhatsAppValue.t)
    (message : WhatsAppMessage.t) (t : Z) (su : WhatsAppStatus.t) (s : Status) :
  ProcessPayload.first (WhatsAppValue.messages value) = Some message ->
  WhatsAppMessage.id message <> ""%string ->
  find (Mongo.has_id (WhatsAppMessage.id message)) (db w) = None ->
  Js.dateOfSeconds (Js.parseInt (WhatsAppMessage.timestamp message)) = Some t ->
  Webhook.refused value message = false ->
  ProcessPayload.first (WhatsAppValue.statuses value') = Some su ->
  ProcessPayload.statusMessageId su = WhatsAppMessage.id message ->
  Status_among ProcessPayload.validStatuses (WhatsAppStatus.status su) = Some s ->
  let r := Mongo.stamped now
             (ProcessPayload.newMessage (WhatsAppValue.metadata value)
                (ProcessPayload.first (WhatsAppValue.contacts value))
                message t) in
  let w1 := snd (ProcessPayload.processMessage now value w) in
  find (Mongo.has_id (WhatsAppMessage.id message)) (db w1) = Some r
  /\ db (snd (ProcessPayload.processStatusUpdate now' value' w1))
     = db w ++ [set_status s now' r].
Proof.
  intros Hfirst Hid Hfind Hdate Href Hfirst' Hid' Hs r w1.
  assert (Hdb1 : db w1 = db w ++ [r]).
  { subst w1. rewrite processMessage_db, Hfirst.
    apply falsy_false_iff in Hid. rewrite Hid, Hfind, Href, Hdate. reflexivity. }
  assert (Hr : Mongo.has_id (WhatsAppMessage.id message) r = true).
  { unfold Mongo.has_id. subst r. simpl. apply String.eqb_refl. }
  split.
  - rewrite Hdb1, (find_app_none _ _ _ Hfind), Hr. reflexivity.
  - rewrite processStatusUpdate_db, Hfirst', Hid'.
    apply falsy_false_iff in Hid. rewrite Hid, Hs, Hdb1.
    rewrite update_first_split; [reflexivity| |exact Hr].
    intros x Hx. destruct (Mongo.has_id _ x) eqn:E; [|reflexivity].
    exfalso. apply (find_none _ _ Hfind) in Hx. congruence.
Qed.

Lemma stored_message_is_reached_by_its_status_witness :
  db (snd (ProcessPayload.processStatusUpdate 1001
             (Scenario.statuses_value "m1" "delivered")
             (snd (ProcessPayload.processMessage 5
                     (Scenario.messages_value Scenario.m1)
                     (Scenario.store [])))))
  = [] ++ [set_status delivered 1001 (Scenario.stored_m1 sent)].
Proof.
  assert (Hdate : Js.dateOfSeconds
                    (Js.parseInt (WhatsAppMessage.timestamp Scenario.m1))
                  = Some 1000000%Z) by (vm_compute; reflexivity).
  assert (Href : Webhook.refused (Scenario.messages_value Scenario.m1)
                   Scenario.m1 = false) by (vm_compute; reflexivity).
  assert (Hid : WhatsAppMessage.id Scenario.m1 <> ""%string) by discriminate.
  apply (stored_message_is_reached_by_its_status 5 1001 (Scenario.store [])
           (Scenario.messages_value Scenario.m1)
           (Scenario.statuses_value "m1" "delivered")
           Scenario.m1 1000000 (Scenario.status_of "m1" "delivered") delivered
           eq_refl Hid eq_refl Hdate Href eq_refl eq_refl eq_refl).
Defined.

(** ** [sendMessage] *)

Lemma sendMessage_answer_core (now : Z) (rnd : string)
    (req : Controllers.MessageRequest) (w : World) :
  let res := Controllers.sendMessage App.app now rnd req w in
  (Controllers.r_conversationId req = ""%string
   \/ Controllers.r_from req = ""%string
   \/ Controllers.r_to req = ""%string
   \/ Controllers.r_body req = ""%string ->
   exists msg,
     res = (Returned {| Controllers.statusCode := 400;
                        Controllers.json := Controllers.json_error msg |}, w))
  /\ (Controllers.r_conversationId req <> ""%string ->
      Controllers.r_from req <> ""%string ->
      Controllers.r_to req <> ""%string ->
      Controllers.r_body req <> ""%string ->
      exists saved,
        fst res = Returned {| Controllers.statusCode := 201;
                              Controllers.json := Controllers.json_message saved |}
        /\ db (snd res) = db w ++ [saved]
        /\ emitted (snd res)
           = emitted w ++ [{| room := Controllers.r_conversationId req;
                              event := new_message saved |}]
        /\ conversationId saved = Controllers.r_conversationId req
        /\ status saved = sent
        /\ type saved = "text"%string
        /\ body saved = Js.trim (Controllers.r_body req)
        /\ userName saved
           = Js.opt_or_else (Controllers.r_userName req) "Business"
        /\ timestamp saved = now
        /\ createdAt saved = Some now).
Proof.
  intros res. subst res. unfold Controllers.sendMessage. split.
  - intros H.
    assert (Hg : Js.falsy (Controllers.r_conversationId req)
                 || Js.falsy (Controllers.r_from req)
                 || Js.falsy (Controllers.r_to req)
                 || Js.falsy (Controllers.r_body req) = true).
    { destruct H as [H|[H|[H|H]]]; rewrite H; cbn;
        rewrite ?orb_true_r; reflexivity. }
    rewrite Hg. eexists. reflexivity.
  - intros Hc Hf Ht Hb.
    apply falsy_false_iff in Hc, Hf, Ht, Hb.
    rewrite Hc, Hf, Ht, Hb. cbn [orb].
    unfold try_catch, bind, Mongo.save, required_ok.
    cbn [conversationId messageId from to type].
    rewrite Hc, Hf, Ht. cbn.
    eexists. repeat split.
Qed.

(** X16. A request with an empty identifier, sender, recipient or body is
answered 400 and changes nothing. Every other request is answered 201 (never
500: the document always passes the schema), stores exactly one document in
status sent and of type text, with the trimmed body and the sender name
defaulting to [Business], and publishes that document once, to the room
named by the conversation identifier of the request. *)
Theorem sendMessage_answer (now : Z) (rnd : string)
    (req : Controllers.MessageRequest) (w : World) :
  let res := Controllers.sendMessage App.app now rnd req w in
  (Controllers.r_conversationId req = ""%string
   \/ Controllers.r_from req = ""%string
   \/ Controllers.r_to req = ""%string
   \/ Controllers.r_body req = ""%string ->
   exists msg,
     res = (Returned {| Controllers.statusCode := 400;
                        Controllers.json := Controllers.json_error msg |}, w))
  /\ (Controllers.r_conversationId req <> ""%string ->
      Controllers.r_from req <> ""%string ->
      Controllers.r_to req <> ""%string ->
      Controllers.r_body req <> ""%string ->
      exists saved,
        fst res = Returned {| Controllers.statusCode := 201;
                              Controllers.json := Controllers.json_message saved |}
        /\ db (snd res) = db w ++ [saved]
        /\ emitted (snd res)
           = emitted w ++ [{| room := Controllers.r_conversationId req;
                              event := new_message saved |}]
        /\ conversationId saved = Controllers.r_conversationId req
        /\ status saved = sent
        /\ type saved = "text"%string
        /\ body saved = Js.trim (Controllers.r_body req)
        /\ userName saved
           = Js.opt_or_else (Controllers.r_userName req) "Business"
        /\ timestamp saved = now
        /\ createdAt saved = Some now).
Proof. exact (sendMessage_answer_core now rnd req w). Qed.

Lemma sendMessage_answer_witness :
  exists saved,
    fst (Controllers.sendMessage App.app 7 "k3j9x0a1b" Scenario.send_request
           (Scenario.store []))
    = Returned {| Controllers.statusCode := 201;
                  Controllers.json := Controllers.json_message saved |}
    /\ db (snd (Controllers.sendMessage App.app 7 "k3j9x0a1b"
                  Scenario.send_request (Scenario.store [])))
       = [] ++ [saved]
    /\ status saved = sent.
Proof.
  destruct (sendMessage_answer 7 "k3j9x0a1b" Scenario.send_request
              (Scenario.store [])) as [_ H].
  destruct H as (saved & H1 & H2 & _ & _ & H5 & _); try discriminate.
  exists saved. auto.
Defined.

(** ** [extractPhoneNumber] and [getConversationId] *)

Lemma keepDigitsAndPlus_chars (s : string) :
  Phone.digits_of (ProcessPayload.keepDigitsAndPlus s) = Phone.digits_of s
  /\ Forall (fun c => Phone.is_digit c = true \/ c = "+"%char)
       (Phone.chars (ProcessPayload.keepDigitsAndPlus s)).
Proof.
  unfold Phone.digits_of, Phone.chars.
  induction s as [|c r [IH1 IH2]].
  - split; [reflexivity|constructor].
  - cbn [ProcessPayload.keepDigitsAndPlus list_ascii_of_string filter].
    change ((48 <=? Js.code c)%N && (Js.code c <=? 57)%N)
      with (Phone.is_digit c).
    destruct (Phone.is_digit c) eqn:Hd.
    + cbn [orb list_ascii_of_string filter]. rewrite Hd, IH1.
      split; [reflexivity|]. constructor; auto.
    + cbn [orb]. destruct (Ascii.eqb_spec c "+") as [->|Hp].
      * cbn [list_ascii_of_string filter]. rewrite Hd, IH1.
        split; [reflexivity|]. constructor; auto.
      * split; assumption.
Qed.


Lemma substring_all (s : string) : String.substring 0 (String.length s) s = s.
Proof. induction s as [|c r IH]; simpl; [reflexivity|]. rewrite IH. reflexivity. Qed.

Lemma startsWith_plus (c : ascii) (r : string) :
  Js.startsWith "+" (String c r) = Ascii.eqb c "+".
Proof.
  unfold Js.startsWith. cbn [String.prefix].
  destruct (ascii_dec "+" c) as [E|E].
  - subst c. rewrite Ascii.eqb_refl. destruct r; reflexivity.
  - symmetry. apply Ascii.eqb_neq. congruence.
Qed.

(** X17. The helper only removes characters: the digits of its input are those
of its result, in the same order, and the result holds nothing but digits
and plus signs. The empty input has no result. *)
Theorem extractPhoneNumber_keeps_digits (s n : string) :
  ProcessPayload.extractPhoneNumber s = Some n ->
  s <> ""%string
  /\ Phone.digits_of n = Phone.digits_of s
  /\ Forall (fun c => Phone.is_digit c = true \/ c = "+"%char) (Phone.chars n).
Proof.
  unfold ProcessPayload.extractPhoneNumber.
  destruct (Js.falsy s) eqn:Hs; [discriminate|].
  apply falsy_false_iff in Hs. intros [= <-].
  split; [exact Hs|].
  destruct (keepDigitsAndPlus_chars s) as [Hd Hall].
  destruct (ProcessPayload.keepDigitsAndPlus s) as [|c r] eqn:Hk.
  - split; [exact Hd|constructor].
  - rewrite startsWith_plus.
    destruct (Ascii.eqb_spec c "+") as [->|Hc].
    + cbn [String.length]. rewrite Nat.sub_succ, Nat.sub_0_r.
      cbn [String.substring]. rewrite substring_all.
      split.
      * rewrite <- Hd. reflexivity.
      * inversion Hall; assumption.
    + split; [exact Hd|exact Hall].
Qed.

Lemma extractPhoneNumber_keeps_digits_witness :
  Phone.digits_of "5551234" = Phone.digits_of "+555 12-34".
Proof.
  apply (extractPhoneNumber_keeps_digits "+555 12-34" "5551234").
  reflexivity.
Defined.




(** ** The status progression of index.ts *)

Lemma update_at_app f pre m r :
  Index.update_at (List.length pre) f (pre ++ m :: r) = pre ++ f m :: r.
Proof.
  induction pre as [|x pre IH]; simpl; [reflexivity|].
  rewrite IH. reflexivity.
Qed.

(** A loop of the progression over what [find] returned: the documents
found are advanced where they stand, one emission each. *)
Lemma fold_advance clock s p (l : list IMessage) :
  forall n k pre w,
    db w = pre ++ l ->
    let found := Index.find_limit p n (List.length pre) l in
    let res := fold_left (Index.advance clock s) found (k, w) in
    db (snd res) = pre ++ Progression.advanced clock s p n k l
    /\ console (snd res) = console w
    /\ List.length (emitted (snd res))
       = List.length (emitted w) + List.length found
    /\ fst res = k + 2 * List.length found
    /\ List.length found <= n.
Proof.
  induction l as [|m r IH]; intros n k pre w Hdb.
  - destruct n; simpl; repeat split; try lia; exact Hdb.
  - destruct n as [|n'].
    + simpl. repeat split; try lia. exact Hdb.
    + cbn [Index.find_limit Progression.advanced].
      destruct (p m) eqn:Pm.
      * cbn [fold_left Index.advance].
        set (w1 := {| db := _; emitted := _; console := _ |}).
        assert (Hdb1 : db w1 = (pre ++ [set_status s (clock k) m]) ++ r).
        { subst w1. cbn [db]. rewrite Hdb, update_at_app, <- app_assoc.
          reflexivity. }
        specialize (IH n' (k + 2) (pre ++ [set_status s (clock k) m]) w1 Hdb1).
        rewrite length_app, Nat.add_1_r in IH. cbv zeta in IH.
        destruct IH as (H1 & H2 & H3 & H4 & H5).
        cbv zeta. rewrite H1, H2, H3, H4.
        subst w1. cbn [console emitted]. rewrite length_app. cbn [List.length].
        rewrite <- app_assoc.
        repeat split; try lia; try reflexivity.
      * assert (Hdb1 : db w = (pre ++ [m]) ++ r)
          by (rewrite Hdb, <- app_assoc; reflexivity).
        specialize (IH (S n') k (pre ++ [m]) w Hdb1).
        rewrite length_app, Nat.add_1_r in IH. cbv zeta in IH.
        destruct IH as (H1 & H2 & H3 & H4 & H5).
        cbv zeta. rewrite H1, H2, H3, H4, <- app_assoc.
        repeat split; try lia; try reflexivity.
Qed.

(** The progression as two passes over the collection. *)
Lemma simulateStatusProgression_db clock w :
  exists k,
    db (snd (Index.simulateStatusProgression clock w))
    = Progression.advanced clock read
        (Index.delivered_before (clock k - 30000)) 3 (k + 1)
        (Progression.advanced clock delivered
           (Index.sent_before (clock 0 - 10000)) 5 1 (db w))
    /\ fst (Index.simulateStatusProgression clock w) = Returned tt
    /\ console (snd (Index.simulateStatusProgression clock w)) = console w
    /\ List.length (emitted (snd (Index.simulateStatusProgression clock w)))
       <= List.length (emitted w) + 8.
Proof.
  unfold Index.simulateStatusProgression.
  pose proof (fold_advance clock delivered
                (Index.sent_before (clock 0 - 10000)) (db w) 5 1 [] w eq_refl)
    as H1.
  cbv zeta in H1. cbn [List.length app] in H1.
  destruct (fold_left (Index.advance clock delivered) _ (1, w)) as [k w1].
  cbn [fst snd] in H1. destruct H1 as (Hdb1 & Hc1 & He1 & Hk1 & Hn1).
  pose proof (fold_advance clock read
                (Index.delivered_before (clock k - 30000)) (db w1) 3 (k + 1)
                [] w1 eq_refl) as H2.
  cbv zeta in H2. cbn [List.length app] in H2.
  destruct (fold_left (Index.advance clock read) _ (k + 1, w1)) as [k2 w2].
  cbn [fst snd] in H2. destruct H2 as (Hdb2 & Hc2 & He2 & Hk2 & Hn2).
  exists k. cbn [fst snd].
  rewrite Hdb2, Hdb1. split; [reflexivity|]. split; [reflexivity|].
  split; [congruence|lia].
Qed.

Lemma advanced_pointwise clock s p (l : list IMessage) :
  forall n k,
    Forall2 (fun m m' =>
               m' = m \/ (p m = true /\ exists j, m' = set_status s (clock j) m))
      l (Progression.advanced clock s p n k l).
Proof.
  induction l as [|m r IH]; intros n k.
  - destruct n; constructor.
  - destruct n as [|n'].
    + simpl. constructor; [auto|].
      clear. induction r; constructor; auto.
    + cbn [Progression.advanced]. destruct (p m) eqn:Pm.
      * constructor; [right; split; [exact Pm|eexists; reflexivity]|apply IH].
      * constructor; [auto|apply IH].
Qed.

Lemma Forall2_compose {A : Type} (R S T : A -> A -> Prop) :
  (forall a b c, R a b -> S b c -> T a c) ->
  forall l1 l2 l3, Forall2 R l1 l2 -> Forall2 S l2 l3 -> Forall2 T l1 l3.
Proof.
  intros H l1 l2 l3 H12. revert l3.
  induction H12 as [|a b l1 l2 Hab _ IH]; intros l3 H23.
  - inversion H23. constructor.
  - inversion H23 as [|? c ? l3' Hbc H23']; subst.
    constructor; [eapply H; eassumption|apply IH, H23'].
Qed.

Lemma progression_moves_forward_core (clock : nat -> Z) (w : World) :
  let res := Index.simulateStatusProgression clock w in
  fst res = Returned tt
  /\ Forall2 (fun m m' =>
                Webhook.same_message m m'
                /\ rank (status m) <= rank (status m')
                /\ (status m = pending \/ status m = read -> m' = m))
       (db w) (db (snd res))
  /\ List.length (emitted (snd res)) <= List.length (emitted w) + 8
  /\ console (snd res) = console w.
Proof.
  intros res. subst res.
  destruct (simulateStatusProgression_db clock w) as (k & Hdb & Hret & Hcon & Hem).
  split; [exact Hret|]. split; [|split; assumption].
  rewrite Hdb.
  eapply Forall2_compose;
    [|apply advanced_pointwise|apply advanced_pointwise].
  intros a b c [->|[Pa [j ->]]] [->|[Pb [j' ->]]].
  - split; [apply same_message_refl|]. split; [lia|auto].
  - unfold Index.delivered_before in Pb.
    apply andb_true_iff in Pb. destruct Pb as [Pb _].
    split; [apply same_message_set_status|].
    destruct (status a) eqn:Ha; try discriminate.
    cbn [status set_status]. split; [simpl; lia|].
    intros [F|F]; discriminate.
  - unfold Index.sent_before in Pa.
    apply andb_true_iff in Pa. destruct Pa as [Pa _].
    split; [apply same_message_set_status|].
    destruct (status a) eqn:Ha; try discriminate.
    cbn [status set_status]. split; [simpl; lia|].
    intros [F|F]; discriminate.
  - unfold Index.sent_before in Pa.
    apply andb_true_iff in Pa. destruct Pa as [Pa _].
    split; [unfold Webhook.same_message; repeat split|].
    destruct (status a) eqn:Ha; try discriminate.
    cbn [status set_status]. split; [simpl; lia|].
    intros [F|F]; discriminate.
Qed.

(** X19. A run of the progression keeps every document and can only move a
status forward: nothing is deleted or added, a pending message stays
pending, and no status goes back. It publishes at most eight events and
never throws. *)
Theorem progression_moves_forward (clock : nat -> Z) (w : World) :
  let res := Index.simulateStatusProgression clock w in
  fst res = Returned tt
  /\ Forall2 (fun m m' =>
                Webhook.same_message m m'
                /\ rank (status m) <= rank (status m')
                /\ (status m = pending \/ status m = read -> m' = m))
       (db w) (db (snd res))
  /\ List.length (emitted (snd res)) <= List.length (emitted w) + 8
  /\ console (snd res) = console w.
Proof. exact (progression_moves_forward_core clock w). Qed.

(** X20. When no two clock readings of a run are more than 30 seconds apart, a
message advances by one step at most: from sent to delivered or from
delivered to read. *)
Theorem progression_one_step (clock : nat -> Z) (w : World) :
  (forall i j, (clock j - clock i <= 30000)%Z) ->
  Forall2 (fun m m' =>
             status m' = status m
             \/ (status m = sent /\ status m' = delivered)
             \/ (status m = delivered /\ status m' = read))
    (db w) (db (snd (Index.simulateStatusProgression clock w))).
Proof.
  intros Hclock.
  destruct (simulateStatusProgression_db clock w) as (k & Hdb & _).
  rewrite Hdb.
  eapply Forall2_compose;
    [|apply advanced_pointwise|apply advanced_pointwise].
  intros a b c [->|[Pa [j ->]]] [->|[Pb [j' ->]]].
  - auto.
  - unfold Index.delivered_before in Pb.
    apply andb_true_iff in Pb. destruct Pb as [Pb _].
    destruct (status a) eqn:Ha; try discriminate. auto.
  - unfold Index.sent_before in Pa.
    apply andb_true_iff in Pa. destruct Pa as [Pa _].
    destruct (status a) eqn:Ha; try discriminate. auto.
  - exfalso. unfold Index.delivered_before in Pb.
    apply andb_true_iff in Pb. destruct Pb as [_ Pb].
    cbn [updatedAt set_status] in Pb. apply Z.ltb_lt in Pb.
    specialize (Hclock j k). lia.
Qed.

Lemma progression_one_step_witness :
  Forall2 (fun m m' =>
             status m' = status m
             \/ (status m = sent /\ status m' = delivered)
             \/ (status m = delivered /\ status m' = read))
    (db (Scenario.store [Scenario.outbound; Scenario.stored_m1 delivered]))
    (db (snd (Index.simulateStatusProgression (fun _ => 100000%Z)
                (Scenario.store
                   [Scenario.outbound; Scenario.stored_m1 delivered])))).
Proof.
  apply (progression_one_step (fun _ => 100000%Z)
           (Scenario.store [Scenario.outbound; Scenario.stored_m1 delivered])).
  intros i j. lia.
Defined.

(** ** The processing order of processWebhookFiles.ts *)

Lemma count_occ_filter (p : string -> bool) (l : list string) (f : string) :
  count_occ string_dec (filter p l) f
  = if p f then count_occ string_dec l f else 0.
Proof.
  induction l as [|x r IH]; simpl.
  - destruct (p f); reflexivity.
  - destruct (p x) eqn:Px; simpl.
    + destruct (string_dec x f) as [->|Hx].
      * rewrite IH, Px. reflexivity.
      * exact IH.
    + rewrite IH. destruct (string_dec x f) as [->|Hx]; [|reflexivity].
      rewrite Px. reflexivity.
Qed.

Lemma count_occ_sort (l : list string) (f : string) :
  count_occ string_dec (ProcessWebhookFiles.sort l) f = count_occ string_dec l f.
Proof.
  apply Permutation_count_occ. unfold ProcessWebhookFiles.sort.
  apply sort_by_Permutation.
Qed.

(** X21. Every [.json] entry of the directory is processed, and nothing else. A
file whose name contains both [message] and [status] is in the message
group and in the status group, so it is processed twice; every other file
once. *)
Theorem sortedFiles_occurrences (entries : list string) (f : string) :
  count_occ string_dec (ProcessWebhookFiles.sortedFiles entries) f
  = (if ProcessWebhookFiles.includes "message" f
        && ProcessWebhookFiles.includes "status" f
     then 2 else 1)
    * (if ProcessWebhookFiles.endsWith ".json" f
       then count_occ string_dec entries f else 0).
Proof.
  unfold ProcessWebhookFiles.sortedFiles, ProcessWebhookFiles.files.
  rewrite !count_occ_app, !count_occ_sort, !count_occ_filter.
  destruct (ProcessWebhookFiles.includes "message" f),
           (ProcessWebhookFiles.includes "status" f),
           (ProcessWebhookFiles.endsWith ".json" f); simpl; lia.
Qed.

Lemma ascii_compare_lt_trans a b c :
  Ascii.compare a b = Lt -> Ascii.compare b c = Lt -> Ascii.compare a c = Lt.
Proof.
  unfold Ascii.compare. rewrite !N.compare_lt_iff. lia.
Qed.

Lemma string_compare_lt_trans s1 :
  forall s2 s3,
    String.compare s1 s2 = Lt -> String.compare s2 s3 = Lt ->
    String.compare s1 s3 = Lt.
Proof.
  induction s1 as [|a r1 IH]; intros [|b r2] [|c r3]; simpl;
    try discriminate; try reflexivity.
  destruct (Ascii.compare a b) eqn:Hab; try discriminate;
    destruct (Ascii.compare b c) eqn:Hbc; try discriminate.
  - apply Ascii.compare_eq_iff in Hab, Hbc. subst.
    assert (Hcc : Ascii.compare c c = Eq)
      by (unfold Ascii.compare; apply N.compare_refl).
    rewrite Hcc. apply IH.
  - apply Ascii.compare_eq_iff in Hab. subst. rewrite Hbc. reflexivity.
  - apply Ascii.compare_eq_iff in Hbc. subst. rewrite Hab. reflexivity.
  - rewrite (ascii_compare_lt_trans a b c Hab Hbc). reflexivity.
Qed.

Lemma string_leb_trans a b c :
  String.leb a b = true -> String.leb b c = true -> String.leb a c = true.
Proof.
  unfold String.leb.
  destruct (String.compare a b) eqn:Hab; try discriminate;
    destruct (String.compare b c) eqn:Hbc; try discriminate; intros _ _.
  - apply String.compare_eq_iff in Hab. subst. rewrite Hbc. reflexivity.
  - apply String.compare_eq_iff in Hab. subst. rewrite Hbc. reflexivity.
  - apply String.compare_eq_iff in Hbc. subst. rewrite Hab. reflexivity.
  - rewrite (string_compare_lt_trans a b c Hab Hbc). reflexivity.
Qed.

(** X22. The files are processed in three runs, each in ascending order of the
names: those that contain [message], then those that contain [status], then
the rest. *)
Theorem sortedFiles_groups (entries : list string) :
  exists ms ss os,
    ProcessWebhookFiles.sortedFiles entries = ms ++ ss ++ os
    /\ StronglySorted (fun a b => String.leb a b = true) ms
    /\ StronglySorted (fun a b => String.leb a b = true) ss
    /\ StronglySorted (fun a b => String.leb a b = true) os
    /\ Forall (fun f => ProcessWebhookFiles.includes "message" f = true) ms
    /\ Forall (fun f => ProcessWebhookFiles.includes "status" f = true) ss
    /\ Forall (fun f => ProcessWebhookFiles.includes "message" f = false
                        /\ ProcessWebhookFiles.includes "status" f = false) os.
Proof.
  unfold ProcessWebhookFiles.sortedFiles.
  do 3 eexists. split; [reflexivity|].
  assert (Hsorted : forall l,
            StronglySorted (fun a b => String.leb a b = true)
              (ProcessWebhookFiles.sort l)).
  { intros l. apply sort_by_StronglySorted;
      [exact String.leb_total|exact string_leb_trans]. }
  assert (Hall : forall (p : string -> bool) (P : string -> Prop) l,
            (forall f, p f = true -> P f) ->
            Forall P (ProcessWebhookFiles.sort (filter p l))).
  { intros p P l HP. apply Forall_forall. intros f Hf.
    unfold ProcessWebhookFiles.sort in Hf.
    apply (Permutation_in _ (sort_by_Permutation _ _)) in Hf.
    apply filter_In in Hf. apply HP, Hf. }
  repeat split; try apply Hsorted.
  - apply Hall. auto.
  - apply Hall. auto.
  - apply Hall. intros f Hf. apply andb_true_iff in Hf.
    destruct Hf as [H1 H2]. apply negb_true_iff in H1, H2. auto.
Qed.

(** ** Status updates and the rest of the system *)

(** X23. The webhook handler and the direct endpoint leave the same store behind
for the same identifier, status string and time, valid or not; they differ
in what they answer, log and publish. *)
Theorem status_paths_agree_on_the_store
    (now : Z) (w : World) (app : App.t) (value : WhatsAppValue.t)
    (su : WhatsAppStatus.t) :
  ProcessPayload.first (WhatsAppValue.statuses value) = Some su ->
  db (snd (Controllers.updateMessageStatus app now
             (ProcessPayload.statusMessageId su) (WhatsAppStatus.status su) w))
  = db (snd (ProcessPayload.processStatusUpdate now value w)).
Proof.
  intros Hfirst. rewrite processStatusUpdate_db, Hfirst.
  destruct (Js.falsy (ProcessPayload.statusMessageId su)) eqn:Hid.
  { unfold Controllers.updateMessageStatus. rewrite Hid. reflexivity. }
  apply falsy_false_iff in Hid.
  destruct (Status_among ProcessPayload.validStatuses (WhatsAppStatus.status su))
    as [s|] eqn:Hs.
  - rewrite (updateMessageStatus_valid now w app _ _ s Hid Hs). cbv zeta.
    destruct (fst (Mongo.update_first _ _ _)); reflexivity.
  - destruct (updateMessageStatus_invalid now w app
                (ProcessPayload.statusMessageId su) _ Hs) as [msg ->].
    reflexivity.
Qed.

Lemma status_paths_agree_on_the_store_witness :
  db (snd (Controllers.updateMessageStatus App.app 1001 "m1" "read"
             (Scenario.store [Scenario.stored_m1 sent])))
  = db (snd (ProcessPayload.processStatusUpdate 1001
               (Scenario.statuses_value "m1" "read")
               (Scenario.store [Scenario.stored_m1 sent]))).
Proof.
  exact (status_paths_agree_on_the_store 1001
           (Scenario.store [Scenario.stored_m1 sent]) App.app
           (Scenario.statuses_value "m1" "read")
           (Scenario.status_of "m1" "read") eq_refl).
Defined.

Lemma same_message_ids l l' :
  Forall2 Webhook.same_message l l' -> map messageId l' = map messageId l.
Proof.
  induction 1 as [|m m' l l' Hm _ IH]; simpl; [reflexivity|].
  destruct Hm as (_ & Hid & _). rewrite Hid, IH. reflexivity.
Qed.

(** X24. When the stored identifiers are pairwise distinct, they still are after
any webhook payload: the pipeline never stores an identifier twice. *)
Theorem webhook_keeps_identifiers_unique
    (now : Z) (p : WebhookPayload.t) (w : World) :
  NoDup (map messageId (db w)) ->
  NoDup (map messageId
           (db (snd (ProcessPayload.processWebhookPayload now p w)))).
Proof.
  intros Hnd.
  destruct (webhook_keeps_documents_core now p w) as (_ & kept & added & Hdb & Hkept & Hadded).
  rewrite Hdb, map_app, (same_message_ids _ _ Hkept).
  destruct Hadded as [->|(r & -> & _ & Hfind)].
  - simpl. rewrite app_nil_r. exact Hnd.
  - apply NoDup_app; [exact Hnd|repeat constructor; simpl; tauto|].
    intros i Hi [<-|[]].
    apply in_map_iff in Hi. destruct Hi as (m & Hm & Hin).
    apply (find_none _ _ Hfind) in Hin.
    unfold Mongo.has_id in Hin. apply String.eqb_neq in Hin. contradiction.
Qed.

Lemma webhook_keeps_identifiers_unique_witness :
  NoDup (map messageId
           (db (snd (ProcessPayload.processWebhookPayload 9
                       (Scenario.payload (Scenario.messages_value Scenario.m1))
                       (Scenario.store [Scenario.stored_m1 delivered]))))).
Proof.
  apply (webhook_keeps_identifiers_unique 9
           (Scenario.payload (Scenario.messages_value Scenario.m1))
           (Scenario.store [Scenario.stored_m1 delivered])).
  simpl. repeat constructor. simpl. tauto.
Defined.

Lemma insert_by_same_message m m' l l' :
  Webhook.same_message m m' ->
  Forall2 Webhook.same_message l l' ->
  Forall2 Webhook.same_message
    (Mongo.insert_by Mongo.by_timestamp_asc m l)
    (Mongo.insert_by Mongo.by_timestamp_asc m' l').
Proof.
  intros Hm. induction 1 as [|x x' l l' Hx Hl IH]; simpl.
  - constructor; [exact Hm|constructor].
  - assert (E : Mongo.by_timestamp_asc m x = Mongo.by_timestamp_asc m' x').
    { unfold Mongo.by_timestamp_asc.
      destruct Hm as (_ & _ & _ & _ & _ & -> & _).
      destruct Hx as (_ & _ & _ & _ & _ & -> & _). reflexivity. }
    rewrite E. destruct (Mongo.by_timestamp_asc m' x').
    + constructor; [exact Hm|]. constructor; assumption.
    + constructor; [exact Hx|exact IH].
Qed.

Lemma sort_by_same_message l l' :
  Forall2 Webhook.same_message l l' ->
  Forall2 Webhook.same_message
    (Mongo.sort_by Mongo.by_timestamp_asc l)
    (Mongo.sort_by Mongo.by_timestamp_asc l').
Proof.
  induction 1 as [|x x' l l' Hx _ IH]; simpl; [constructor|].
  apply insert_by_same_message; assumption.
Qed.

(** Two lists of groups that project alike and accumulate alike. *)
Lemma accumulate_same_message gs gs' m m' :
  Forall2 (fun g g' =>
             Controllers._id g = Controllers._id g'
             /\ Webhook.same_message (Controllers.lastMessage g)
                  (Controllers.lastMessage g')
             /\ Controllers.g_messageCount g = Controllers.g_messageCount g'
             /\ Controllers.g_participants g = Controllers.g_participants g'
             /\ Controllers.customerMessages g = Controllers.customerMessages g')
    gs gs' ->
  Webhook.same_message m m' ->
  Forall2 (fun g g' =>
             Controllers._id g = Controllers._id g'
             /\ Webhook.same_message (Controllers.lastMessage g)
                  (Controllers.lastMessage g')
             /\ Controllers.g_messageCount g = Controllers.g_messageCount g'
             /\ Controllers.g_participants g = Controllers.g_participants g'
             /\ Controllers.customerMessages g = Controllers.customerMessages g')
    (Controllers.accumulate gs m) (Controllers.accumulate gs' m').
Proof.
  intros Hgs Hm.
  assert (Hc : conversationId m = conversationId m') by apply Hm.
  assert (Hu : userName m = userName m') by apply Hm.
  assert (Hcm : Controllers.customerMessage m = Controllers.customerMessage m').
  { unfold Controllers.customerMessage.
    destruct Hm as (_ & _ & _ & Hf & _). rewrite Hu, Hf. reflexivity. }
  induction Hgs as [|g g' gs gs' Hg Hrest IH]; simpl.
  - constructor; [|constructor]. simpl. rewrite Hc, Hu, Hcm. auto.
  - destruct Hg as (Hid & Hlast & Hcount & Hpart & Hcust).
    rewrite <- Hid, <- Hc.
    destruct (String.eqb (Controllers._id g) (conversationId m)).
    + constructor; [|assumption]. simpl.
      rewrite Hid, Hcount, Hpart, Hcust, Hu, Hcm. auto.
    + constructor; [auto|exact IH].
Qed.

Lemma aggregate_same_message l l' :
  Forall2 Webhook.same_message l l' ->
  Controllers.aggregate l' = Controllers.aggregate l.
Proof.
  intros H. unfold Controllers.aggregate. f_equal.
  apply sort_by_same_message in H.
  unfold Controllers.group.
  set (R := fun g g' =>
              Controllers._id g = Controllers._id g'
              /\ Webhook.same_message (Controllers.lastMessage g)
                   (Controllers.lastMessage g')
              /\ Controllers.g_messageCount g = Controllers.g_messageCount g'
              /\ Controllers.g_participants g = Controllers.g_participants g'
              /\ Controllers.customerMessages g = Controllers.customerMessages g').
  assert (Hfold : forall gs gs',
            Forall2 R gs gs' ->
            Forall2 R
              (fold_left Controllers.accumulate
                 (Mongo.sort_by Mongo.by_timestamp_asc l) gs)
              (fold_left Controllers.accumulate
                 (Mongo.sort_by Mongo.by_timestamp_asc l') gs')).
  { induction H as [|x x' s s' Hx _ IH]; intros gs gs' Hgs; simpl;
      [exact Hgs|].
    apply IH. apply accumulate_same_message; assumption. }
  specialize (Hfold [] [] (Forall2_nil _)).
  induction Hfold as [|g g' gs gs' Hg _ IH]; simpl; [reflexivity|].
  rewrite IH. f_equal.
  destruct Hg as (Hid & Hlast & Hcount & Hpart & Hcust).
  unfold Controllers.project, Controllers.projected_userName.
  destruct Hlast as (_ & _ & _ & _ & _ & Hts & _ & Hbody & _).
  rewrite Hid, Hcount, Hpart, Hcust, Hts, Hbody. reflexivity.
Qed.

(** X25. No status update changes the conversation list: after a status payload,
a direct status update or a run of the progression, [getConversations]
answers what it answered before. *)
Theorem status_updates_keep_the_conversation_list
    (now : Z) (clock : nat -> Z) (w : World) :
  (forall value,
     Controllers.aggregate
       (db (snd (ProcessPayload.processStatusUpdate now value w)))
     = Controllers.aggregate (db w))
  /\ (forall app i str,
        Controllers.aggregate
          (db (snd (Controllers.updateMessageStatus app now i str w)))
        = Controllers.aggregate (db w))
  /\ Controllers.aggregate
       (db (snd (Index.simulateStatusProgression clock w)))
     = Controllers.aggregate (db w).
Proof.
  split; [|split].
  - intros value. apply aggregate_same_message.
    rewrite processStatusUpdate_db.
    destruct (ProcessPayload.first _); [|apply Forall2_same_message_refl].
    destruct (Js.falsy _); [apply Forall2_same_message_refl|].
    destruct (Status_among _ _); [|apply Forall2_same_message_refl].
    apply update_first_same_message.
  - intros app i str. apply aggregate_same_message.
    destruct (Status_among Controllers.validStatuses str) as [s|] eqn:Hs.
    + destruct (Js.falsy i) eqn:Hi.
      * unfold Controllers.updateMessageStatus. rewrite Hi.
        apply Forall2_same_message_refl.
      * apply falsy_false_iff in Hi.
        rewrite (updateMessageStatus_valid now w app i str s Hi Hs). cbv zeta.
        pose proof (update_first_same_message (Mongo.has_id i) s now (db w)) as H.
        destruct (Mongo.update_first _ _ _) as [[u|] d']; exact H.
    + destruct (updateMessageStatus_invalid now w app i str Hs) as [msg ->].
      apply Forall2_same_message_refl.
  - apply aggregate_same_message.
    destruct (progression_moves_forward_core clock w) as (_ & H & _).
    eapply Forall2_impl; [|exact H]. intros a b Hab. apply Hab.
Qed.

(** ** The direct endpoints and the read side *)

(** X26. On the direct endpoint a valid status for a stored identifier is
answered 200 with the updated document and published exactly once, to the
room of that document's conversation; the event carries the identifier, the
new status and the update time that was stored. *)
Theorem direct_status_update_is_published
    (now : Z) (w : World) (i str : string) (s : Status)
    (l1 l2 : list IMessage) (m : IMessage) :
  i <> ""%string ->
  Status_among Controllers.validStatuses str = Some s ->
  db w = l1 ++ m :: l2 ->
  messageId m = i ->
  (forall x, In x l1 -> messageId x <> i) ->
  Controllers.updateMessageStatus App.app now i str w
  = (Returned {| Controllers.statusCode := 200;
                 Controllers.json :=
                   Controllers.json_message (set_status s now m) |},
     {| db := l1 ++ set_status s now m :: l2;
        emitted :=
          emitted w ++
          [{| room := conversationId m;
              event := message_status_updated i s (Some now) |}];
        console := console w |}).
Proof.
  intros Hi Hs Hdb Hm Hl1.
  rewrite (updateMessageStatus_valid now w App.app i str s Hi Hs). cbv zeta.
  rewrite Hdb, update_first_split.
  - reflexivity.
  - intros x Hx. unfold Mongo.has_id. apply String.eqb_neq, Hl1, Hx.
  - unfold Mongo.has_id. apply String.eqb_eq, Hm.
Qed.

Lemma direct_status_update_is_published_witness :
  Controllers.updateMessageStatus App.app 1001 "m1" "delivered"
    (Scenario.store [Scenario.outbound; Scenario.stored_m1 sent])
  = (Returned {| Controllers.statusCode := 200;
                 Controllers.json :=
                   Controllers.json_message
                     (set_status delivered 1001 (Scenario.stored_m1 sent)) |},
     {| db := [Scenario.outbound]
              ++ set_status delivered 1001 (Scenario.stored_m1 sent) :: [];
        emitted :=
          emitted (Scenario.store [Scenario.outbound; Scenario.stored_m1 sent])
          ++ [{| room := conversationId (Scenario.stored_m1 sent);
                 event := message_status_updated "m1" delivered (Some 1001%Z) |}];
        console :=
          console (Scenario.store [Scenario.outbound; Scenario.stored_m1 sent]) |}).
Proof.
  apply (direct_status_update_is_published 1001
           (Scenario.store [Scenario.outbound; Scenario.stored_m1 sent])
           "m1" "delivered" delivered [Scenario.outbound] []
           (Scenario.stored_m1 sent)).
  - discriminate.
  - reflexivity.
  - reflexivity.
  - reflexivity.
  - intros x [<-|[]]. discriminate.
Defined.

(** X27. A message that [sendMessage] has just stored is served by the read
side: its conversation is in the list of conversations, and the message is
among the messages of its conversation. *)
Theorem sent_message_is_listed (now : Z) (rnd : string)
    (req : Controllers.MessageRequest) (w : World) (saved : IMessage) :
  fst (Controllers.sendMessage App.app now rnd req w)
    = Returned {| Controllers.statusCode := 201;
                  Controllers.json := Controllers.json_message saved |} ->
  let w' := snd (Controllers.sendMessage App.app now rnd req w) in
  In (Controllers.r_conversationId req)
    (map Controllers.conversationId (Controllers.aggregate (db w')))
  /\ exists l,
       fst (Controllers.getMessagesByConversation
              (Controllers.r_conversationId req) w')
       = Returned {| Controllers.replyCode := 200;
                     Controllers.replyJson := Controllers.json_ok l |}
       /\ In saved l.
Proof.
  intros Hres w'.
  destruct (sendMessage_answer_core now rnd req w) as [H400 H201].
  cbv zeta in H400, H201.
  destruct (string_dec (Controllers.r_conversationId req) "") as [Hc|Hc].
  { destruct H400 as [msg H]; [auto|]. rewrite H in Hres. discriminate. }
  destruct (string_dec (Controllers.r_from req) "") as [Hf|Hf].
  { destruct H400 as [msg H]; [auto|]. rewrite H in Hres. discriminate. }
  destruct (string_dec (Controllers.r_to req) "") as [Ht|Ht].
  { destruct H400 as [msg H]; [auto|]. rewrite H in Hres. discriminate. }
  destruct (string_dec (Controllers.r_body req) "") as [Hb|Hb].
  { destruct H400 as [msg H]; [auto 6|]. rewrite H in Hres. discriminate. }
  destruct (H201 Hc Hf Ht Hb) as (saved' & Hfst & Hdb & _ & Hconv & _).
  rewrite Hfst in Hres. injection Hres as <-.
  fold w' in Hdb.
  assert (Hin : In saved' (db w'))
    by (rewrite Hdb; apply in_or_app; right; left; reflexivity).
  split.
  - apply aggregate_one_per_conversation_core. rewrite <- Hconv.
    apply in_map, Hin.
  - destruct (getMessagesByConversation_answer_core (Controllers.r_conversationId req) w')
      as [_ H].
    destruct (H Hc) as (l & Hl & _ & _ & Hmem).
    exists l. rewrite Hl. split; [reflexivity|].
    apply Hmem. split; [exact Hin|exact Hconv].
Qed.

Lemma sent_message_is_listed_witness :
  In "conv_123"%string
    (map Controllers.conversationId
       (Controllers.aggregate
          (db (snd (Controllers.sendMessage App.app 7 "k3j9x0a1b"
                      Scenario.send_request (Scenario.store [])))))).
Proof.
  apply (sent_message_is_listed 7 "k3j9x0a1b" Scenario.send_request
           (Scenario.store []) Scenario.outbound).
  vm_compute. reflexivity.
Defined.
